(** * The Qase reporter facade: fail-over between two backend reporters

    A shallow embedding of [QaseReporter] (qase-javascript-commons, the
    facade that owns an upstream and a fallback reporter) together with the
    collaborators it talks to: the backend reporter interface and the
    persisted run state.  Every facade method is a computation over the
    facade object and the run-state store which also produces the list of
    externally visible actions it performed (backend calls, awaits, store
    writes, log lines), so that ordering properties can be stated on that
    list. *)

From Stdlib Require Import String List Bool ZArith Lia.
From Stdlib Require Import Ascii.
Import ListNotations.
Open Scope string_scope.
Open Scope list_scope.

Set Implicit Arguments.

(** ** Data model *)

(** [ModeEnum] is a string enumeration in the source; values reach
    [createReporter] through a cast, so any string can arrive there. *)
Definition ModeEnum := string.
Definition ModeEnum_report : ModeEnum := "report".
Definition ModeEnum_testops : ModeEnum := "testops".
Definition ModeEnum_off : ModeEnum := "off".

Inductive TestStatusEnum :=
| passed | failed | skipped | blocked | status_disabled | invalid.

Record TestResultType := {
  title : string;
  status : TestStatusEnum
}.

(** The part of the options the facade itself inspects. *)
Record OptionsType := {
  mode : option ModeEnum;
  fallback : option ModeEnum;
  captureLogs_opt : option bool;
  debug : option bool;
  testops_api_token : option string;
  testops_project : option string
}.

(** The two environment variables the constructor writes
    ([EnvEnum.mode] and [EnvRunEnum.id]). *)
Record ProcessEnv := {
  env_mode : option string;
  env_run_id : option Z
}.

Record StateModel := {
  RunId : option Z;
  Mode : option ModeEnum;
  IsModeChanged : option bool
}.

(** JavaScript truthiness of the values the code tests. *)
Definition truthy_string (s : option string) : bool :=
  match s with
  | Some s => negb (String.eqb s "")
  | None => false
  end.

Definition truthy_number (z : option Z) : bool :=
  match z with
  | Some z => negb (Z.eqb z 0)
  | None => false
  end.

Definition truthy_bool (b : option bool) : bool :=
  match b with
  | Some b => b
  | None => false
  end.

(** [m as ModeEnum || ModeEnum.off] *)
Definition or_off (m : option ModeEnum) : ModeEnum :=
  match m with
  | Some s => if String.eqb s "" then ModeEnum_off else s
  | None => ModeEnum_off
  end.

(** ** The persisted run state *)

Module StateManager.

(** Modelled from the spec: the class [StateManager] (state/state.ts) is
    imported by the facade but is not part of the sources at hand.  The
    store holds at most one record (section 4.4 of the specification). *)
Definition Store := option StateModel.

(** Modelled from the spec: [exists() -> bool]. *)
Definition isStateExists (s : Store) : bool :=
  match s with
  | Some _ => true
  | None => false
  end.

(** Modelled from the spec: [read() -> RunState], which fails ([None])
    when no record exists. *)
Definition getState (s : Store) : option StateModel := s.

(** Modelled from the spec: [write(RunState)], a full overwrite. *)
Definition setState (st : StateModel) (_ : Store) : Store := Some st.

(** Modelled from the spec: [setMode(mode)], a read-modify-write that sets
    [Mode] and [IsModeChanged = true] and leaves [RunId] untouched.  On an
    absent record, about which the specification is silent, it starts from
    the record without fields. *)
Definition setMode (m : option ModeEnum) (s : Store) : Store :=
  match s with
  | Some st =>
      Some {| RunId := RunId st; Mode := m; IsModeChanged := Some true |}
  | None =>
      Some {| RunId := None; Mode := m; IsModeChanged := Some true |}
  end.

(** Modelled from the spec: [clear()], which deletes the record. *)
Definition clearState (_ : Store) : Store := None.

End StateManager.

(** ** Backend reporters *)

(** What [await p] does with the handle returned by a backend's
    [startTestRun]. *)
Inductive Promise := Fulfils | Rejects.

Inductive StartResult :=
| StartThrows
| StartReturns (p : Promise).

Module Reporter.

(** Modelled from the spec: [InternalReporterInterface] and its two
    implementations (reporters/) are not part of the sources at hand.
    Section 4.3 of the specification gives the capability contract: a
    result buffer that can be read and overwritten, and five operations
    each of which may fail.  A backend is a state of type [R]; a fallible
    operation returns the next state and whether it succeeded.
    [startTestRun] either throws at the call or returns a handle that is
    awaited later. *)
Class InternalReporterInterface (R : Type) := {
  getTestResults : R -> list TestResultType;
  setTestResults : list TestResultType -> R -> R;
  startTestRun : R -> R * StartResult;
  addTestResult : TestResultType -> R -> R * bool;
  sendResults : R -> R * bool;
  publish : R -> R * bool;
  complete : R -> R * bool;
  getTestResults_setTestResults :
    forall l r, getTestResults (setTestResults l r) = l
}.

End Reporter.

(** ** Observable actions *)

Inductive Role := Upstream | Fallback.

Inductive Op :=
| OpGetTestResults
| OpSetTestResults (l : list TestResultType)
| OpStartTestRun
| OpAddTestResult (r : TestResultType)
| OpSendResults
| OpPublish
| OpComplete.

Inductive Event :=
| EvCall (who : Role) (op : Op) (ok : bool)
| EvAwait (p : option Promise)
| EvSetState (st : StateModel)
| EvSetMode (m : option ModeEnum)
| EvClearState
| EvLog (r : TestResultType)
| EvLogDebug (msg : string)
| EvLogError (msg : string).

Inductive Exn := DisabledException | Error.

(** ** The facade object *)

Record QaseReporter (R : Type) := {
  upstreamReporter : option R;
  fallbackReporter : option R;
  captureLogs : option bool;
  disabled : bool;
  useFallback : bool;
  startTestRunOperation : option Promise;
  options : OptionsType
}.

Record World (R : Type) := {
  self : QaseReporter R;
  store : StateManager.Store
}.

(** How a statement finishes: normally, by [return;] or by throwing. *)
Inductive Completion (A : Type) :=
| Normal (a : A)
| Returned
| Throw (e : Exn).

Arguments Returned {A}.
Arguments Throw {A} e.

Declare Scope facade_scope.
Delimit Scope facade_scope with facade.

Module QaseReporter.

(** *** Request headers *)

(** [process.version], [process.platform] and [process.arch]. *)
Record ProcessInfo := {
  node_version : string;
  platform : string;
  arch : string
}.

Record Headers := {
  X_Client : string;
  X_Platform : string
}.

(** The character class of the regular expression applied to the output
    of [npm -v]: the single quote (39), the double quote (34) and the line
    feed (10). *)
Definition is_quote_or_newline (c : ascii) : bool :=
  Ascii.eqb c (ascii_of_nat 39) ||
  Ascii.eqb c (ascii_of_nat 34) ||
  Ascii.eqb c (ascii_of_nat 10).

(** [s.replace(re, empty)] for that class, with the flag [g]. *)
Fixpoint remove_quotes_newlines (s : string) : string :=
  match s with
  | EmptyString => EmptyString
  | String c s' =>
      if is_quote_or_newline c then remove_quotes_newlines s'
      else String c (remove_quotes_newlines s')
  end.

(** [if (version) { client.push(entry) }] *)
Definition push_version (version : option string) (entry : string -> string)
    (client : list string) : list string :=
  match version with
  | Some v => if String.eqb v EmptyString then client else client ++ [entry v]
  | None => client
  end.

(** [createHeaders(frameworkPackage, frameworkName, reporterName)].  The
    process description, the output of [npm -v] and [getPackageVersion]
    are taken as parameters. *)
Definition createHeaders (proc : ProcessInfo) (npm_v : string)
    (getPackageVersion : string -> option string)
    (frameworkPackage frameworkName reporterName : string) : Headers :=
  let npmVersion := remove_quotes_newlines npm_v in
  let qaseApiVersion := getPackageVersion "qaseio" in
  let qaseReporterVersion := getPackageVersion "qase-javascript-commons" in
  let frameworkVersion := getPackageVersion frameworkPackage in
  let reporterVersion := getPackageVersion reporterName in
  let client := [] in
  let client :=
    push_version frameworkVersion
      (fun v => frameworkName ++ "=" ++ v)%string client in
  let client :=
    push_version reporterVersion
      (fun v => "qase-" ++ frameworkName ++ "=" ++ v)%string client in
  let client :=
    push_version qaseReporterVersion
      (fun v => "qase-core-reporter=" ++ v)%string client in
  let client :=
    push_version qaseApiVersion
      (fun v => "qaseio=" ++ v)%string client in
  {| X_Client := String.concat "; " client;
     X_Platform :=
       ("node=" ++ node_version proc ++ "; npm=" ++ npmVersion
        ++ "; os=" ++ platform proc ++ "; arch=" ++ arch proc)%string |}.

Section WithBackend.

Context {R : Type} `{Reporter.InternalReporterInterface R}.

(** The constructors of the two backends and the resolution of the
    configuration are external collaborators: [None] stands for a
    constructor that throws. *)
Variable newTestOpsReporter : OptionsType -> option R.
Variable newReportReporter : OptionsType -> option R.
Variable composeOptions : OptionsType -> ProcessEnv -> OptionsType.

(** *** Statements *)

Definition M (A : Type) : Type :=
  World R -> Completion A * World R * list Event.

Definition ret {A} (a : A) : M A := fun w => (Normal a, w, []).

Definition bind {A B} (m : M A) (k : A -> M B) : M B :=
  fun w =>
    match m w with
    | (Normal a, w1, t1) =>
        match k a w1 with
        | (c, w2, t2) => (c, w2, t1 ++ t2)
        end
    | (Returned, w1, t1) => (Returned, w1, t1)
    | (Throw e, w1, t1) => (Throw e, w1, t1)
    end.

Local Notation "x <- c1 ;; c2" := (bind c1 (fun x => c2))
  (at level 61, c1 at next level, right associativity) : facade_scope.
Local Notation "c1 ;; c2" := (bind c1 (fun _ => c2))
  (at level 61, right associativity) : facade_scope.
Local Open Scope facade_scope.

(** [return;] *)
Definition return_ : M unit := fun w => (Returned, w, []).

(** [try { body } catch (error) { handler }] *)
Definition try_catch {A} (body : M A) (handler : Exn -> M A) : M A :=
  fun w =>
    match body w with
    | (Throw e, w1, t1) =>
        match handler e w1 with
        | (c, w2, t2) => (c, w2, t1 ++ t2)
        end
    | r => r
    end.

(** The boundary of a [void] method: [return;] ends the method only. *)
Definition fn (body : M unit) : M unit :=
  fun w =>
    match body w with
    | (Returned, w1, t1) => (Normal tt, w1, t1)
    | r => r
    end.

Definition when (c : bool) (m : M unit) : M unit :=
  if c then m else ret tt.

Definition emit (e : Event) : M unit := fun w => (Normal tt, w, [e]).

Definition logDebug (msg : string) : M unit := emit (EvLogDebug msg).
Definition logError (msg : string) : M unit := emit (EvLogError msg).
Definition logTestItem (test : TestResultType) : M unit := emit (EvLog test).

(** *** Fields of [this] *)

Definition this {A} (field : QaseReporter R -> A) : M A :=
  fun w => (Normal (field (self w)), w, []).

Definition update (f : QaseReporter R -> QaseReporter R) : M unit :=
  fun w => (Normal tt, {| self := f (self w); store := store w |}, []).

Definition set_upstreamReporter (r : option R) (q : QaseReporter R) :=
  {| upstreamReporter := r;
     fallbackReporter := fallbackReporter q;
     captureLogs := captureLogs q;
     disabled := disabled q;
     useFallback := useFallback q;
     startTestRunOperation := startTestRunOperation q;
     options := options q |}.

Definition set_fallbackReporter (r : option R) (q : QaseReporter R) :=
  {| upstreamReporter := upstreamReporter q;
     fallbackReporter := r;
     captureLogs := captureLogs q;
     disabled := disabled q;
     useFallback := useFallback q;
     startTestRunOperation := startTestRunOperation q;
     options := options q |}.

Definition set_disabled (b : bool) (q : QaseReporter R) :=
  {| upstreamReporter := upstreamReporter q;
     fallbackReporter := fallbackReporter q;
     captureLogs := captureLogs q;
     disabled := b;
     useFallback := useFallback q;
     startTestRunOperation := startTestRunOperation q;
     options := options q |}.

Definition set_useFallback (b : bool) (q : QaseReporter R) :=
  {| upstreamReporter := upstreamReporter q;
     fallbackReporter := fallbackReporter q;
     captureLogs := captureLogs q;
     disabled := disabled q;
     useFallback := b;
     startTestRunOperation := startTestRunOperation q;
     options := options q |}.

Definition set_startTestRunOperation (p : option Promise)
    (q : QaseReporter R) :=
  {| upstreamReporter := upstreamReporter q;
     fallbackReporter := fallbackReporter q;
     captureLogs := captureLogs q;
     disabled := disabled q;
     useFallback := useFallback q;
     startTestRunOperation := p;
     options := options q |}.

Definition reporter (who : Role) (q : QaseReporter R) : option R :=
  match who with
  | Upstream => upstreamReporter q
  | Fallback => fallbackReporter q
  end.

Definition set_reporter (who : Role) (r : option R) (q : QaseReporter R) :=
  match who with
  | Upstream => set_upstreamReporter r q
  | Fallback => set_fallbackReporter r q
  end.

Definition is_undefined {A} (o : option A) : bool :=
  match o with
  | Some _ => false
  | None => true
  end.

(** *** The run-state store *)

Definition StateManager_isStateExists : M bool :=
  fun w => (Normal (StateManager.isStateExists (store w)), w, []).

Definition StateManager_setState (st : StateModel) : M unit :=
  fun w =>
    (Normal tt,
     {| self := self w; store := StateManager.setState st (store w) |},
     [EvSetState st]).

Definition StateManager_setMode (m : option ModeEnum) : M unit :=
  fun w =>
    (Normal tt,
     {| self := self w; store := StateManager.setMode m (store w) |},
     [EvSetMode m]).

Definition StateManager_clearState : M unit :=
  fun w =>
    (Normal tt,
     {| self := self w; store := StateManager.clearState (store w) |},
     [EvClearState]).

(** *** Calls on a backend *)

(** [await this.<who>Reporter?.<op>(...)]: skipped when the reference is
    undefined; a failure of the backend is thrown at the caller. *)
Definition call (who : Role) (op : Op) (f : R -> R * bool) : M unit :=
  fun w =>
    match reporter who (self w) with
    | None => (Normal tt, w, [])
    | Some r =>
        match f r with
        | (r', ok) =>
            ((if ok then Normal tt else Throw Error),
             {| self := set_reporter who (Some r') (self w);
                store := store w |},
             [EvCall who op ok])
        end
    end.

(** [this.<who>Reporter?.getTestResults() ?? []] *)
Definition getTestResults_or_nil (who : Role) : M (list TestResultType) :=
  fun w =>
    match reporter who (self w) with
    | None => (Normal [], w, [])
    | Some r =>
        (Normal (Reporter.getTestResults r), w,
         [EvCall who OpGetTestResults true])
    end.

(** [this.<who>Reporter?.setTestResults(results)] *)
Definition call_setTestResults (who : Role) (results : list TestResultType)
  : M unit :=
  fun w =>
    match reporter who (self w) with
    | None => (Normal tt, w, [])
    | Some r =>
        (Normal tt,
         {| self := set_reporter who
                      (Some (Reporter.setTestResults results r)) (self w);
            store := store w |},
         [EvCall who (OpSetTestResults results) true])
    end.

(** [this.<who>Reporter?.startTestRun()]: the value is the handle, or
    undefined when the reference is. *)
Definition call_startTestRun (who : Role) : M (option Promise) :=
  fun w =>
    match reporter who (self w) with
    | None => (Normal None, w, [])
    | Some r =>
        match Reporter.startTestRun r with
        | (r', StartThrows) =>
            (Throw Error,
             {| self := set_reporter who (Some r') (self w);
                store := store w |},
             [EvCall who OpStartTestRun false])
        | (r', StartReturns p) =>
            (Normal (Some p),
             {| self := set_reporter who (Some r') (self w);
                store := store w |},
             [EvCall who OpStartTestRun true])
        end
    end.

(** [await this.startTestRunOperation] *)
Definition await_startTestRunOperation : M unit :=
  fun w =>
    let p := startTestRunOperation (self w) in
    (match p with
     | Some Rejects => Throw Error
     | _ => Normal tt
     end, w, [EvAwait p]).

(** [this.fallbackReporter.setTestResults(
       this.upstreamReporter?.getTestResults() ?? []);
     this.useFallback = true;] *)
Definition migrate : M unit :=
  results <- getTestResults_or_nil Upstream ;;
  call_setTestResults Fallback results ;;
  update (set_useFallback true).

(** *** Construction *)

Definition is_falsy_string (s : option string) : bool :=
  negb (truthy_string s).

(** [createReporter(mode, options)] *)
Definition createReporter (mode : ModeEnum) (options : OptionsType)
  : Exn + R :=
  if String.eqb mode ModeEnum_testops then
    if is_falsy_string (testops_api_token options) then inl Error
    else if is_falsy_string (testops_project options) then inl Error
    else
      match newTestOpsReporter options with
      | Some r => inr r
      | None => inl Error
      end
  else if String.eqb mode ModeEnum_report then
    match newReportReporter options with
    | Some r => inr r
    | None => inl Error
    end
  else if String.eqb mode ModeEnum_off then inl DisabledException
  else inl Error.

Definition this_createReporter (mode : ModeEnum) (options : OptionsType)
  : M R :=
  fun w =>
    match createReporter mode options with
    | inl e => (Throw e, w, [])
    | inr r => (Normal r, w, [])
    end.

(** The overrides the constructor takes from an existing run state. *)
Definition env_from_state (s : StateManager.Store) (env : ProcessEnv)
  : ProcessEnv :=
  if StateManager.isStateExists s then
    match StateManager.getState s with
    | Some state =>
        let env1 :=
          if truthy_bool (IsModeChanged state) && truthy_string (Mode state)
          then {| env_mode := Mode state; env_run_id := env_run_id env |}
          else env in
        if truthy_number (RunId state)
        then {| env_mode := env_mode env1; env_run_id := RunId state |}
        else env1
    | None => env
    end
  else env.

(** The object as the field initialisers and the first assignments of
    the constructor leave it. *)
Definition new_object (composedOptions : OptionsType) : QaseReporter R :=
  {| upstreamReporter := None;
     fallbackReporter := None;
     captureLogs := captureLogs_opt composedOptions;
     disabled := false;
     useFallback := false;
     startTestRunOperation := None;
     options := composedOptions |}.

Definition constructor_body (composedOptions : OptionsType) : M unit :=
  fn (
    try_catch
      (r <- this_createReporter (or_off (mode composedOptions))
              composedOptions ;;
       update (set_upstreamReporter (Some r)))
      (fun error =>
         match error with
         | DisabledException => update (set_disabled true)
         | Error =>
             logError "Unable to create upstream reporter:" ;;
             when (negb (is_undefined (fallback composedOptions)))
               (update (set_disabled true) ;; return_) ;;
             update (set_useFallback true)
         end) ;;
    try_catch
      (r <- this_createReporter (or_off (fallback composedOptions))
              composedOptions ;;
       update (set_fallbackReporter (Some r)))
      (fun error =>
         match error with
         | DisabledException =>
             uf <- this (@useFallback R) ;;
             when uf (update (set_disabled true))
         | Error =>
             logError "Unable to create fallback reporter:" ;;
             uf <- this (@useFallback R) ;;
             up <- this (@upstreamReporter R) ;;
             when (uf && is_undefined up) (update (set_disabled true))
         end) ;;
    ex <- StateManager_isStateExists ;;
    when (negb ex)
      (uf <- this (@useFallback R) ;;
       d <- this (@disabled R) ;;
       let state :=
         {| RunId := None;
            Mode := if uf then fallback composedOptions
                    else mode composedOptions;
            IsModeChanged := None |} in
       let state :=
         if d
         then {| RunId := RunId state;
                 Mode := Some ModeEnum_off;
                 IsModeChanged := IsModeChanged state |}
         else state in
       StateManager_setState state)).

(** [new QaseReporter(options)]: the new object, the environment and the
    store as the constructor leaves them, and what it did. *)
Definition constructor (opts : OptionsType) (env : ProcessEnv)
    (s : StateManager.Store)
  : QaseReporter R * ProcessEnv * StateManager.Store * list Event :=
  let env1 := env_from_state s env in
  let composedOptions := composeOptions opts env1 in
  match constructor_body composedOptions
          {| self := new_object composedOptions; store := s |} with
  | (_, w, t) =>
      (self w, env1, store w,
       EvLogDebug "Config" :: t)
  end.

(** *** Methods *)

Definition getResults : M (list TestResultType) :=
  d <- this (@disabled R) ;;
  if d then ret []
  else
    uf <- this (@useFallback R) ;;
    if uf then getTestResults_or_nil Fallback
    else getTestResults_or_nil Upstream.

Definition setTestResults (results : list TestResultType) : M unit :=
  fn (
    d <- this (@disabled R) ;;
    when d return_ ;;
    uf <- this (@useFallback R) ;;
    if uf then call_setTestResults Fallback results
    else call_setTestResults Upstream results).

Definition sendResults : M unit :=
  fn (
    d <- this (@disabled R) ;;
    when d return_ ;;
    try_catch
      (call Upstream OpSendResults Reporter.sendResults)
      (fun _ =>
         logError "Unable to send the results to the upstream reporter:" ;;
         fb <- this (@fallbackReporter R) ;;
         when (is_undefined fb)
           (StateManager_setMode (Some ModeEnum_off) ;; return_) ;;
         uf <- this (@useFallback R) ;;
         when (negb uf) migrate ;;
         try_catch
           (call Fallback OpSendResults Reporter.sendResults ;;
            o <- this (@options R) ;;
            StateManager_setMode (fallback o))
           (fun _ =>
              logError
                "Unable to send the results to the fallback reporter:" ;;
              StateManager_setMode (Some ModeEnum_off)))).

Definition complete : M unit :=
  fn (
    StateManager_clearState ;;
    d <- this (@disabled R) ;;
    when d return_ ;;
    try_catch
      (call Upstream OpComplete Reporter.complete)
      (fun _ =>
         logError "Unable to complete the run in the upstream reporter:" ;;
         fb <- this (@fallbackReporter R) ;;
         when (is_undefined fb) return_ ;;
         uf <- this (@useFallback R) ;;
         when (negb uf) migrate ;;
         try_catch
           (call Fallback OpComplete Reporter.complete)
           (fun _ =>
              logError
                "Unable to complete the run in the fallback reporter:"))).

Definition startTestRun : M unit :=
  fn (
    d <- this (@disabled R) ;;
    when (negb d)
      (logDebug "Starting test run" ;;
       try_catch
         (p <- call_startTestRun Upstream ;;
          update (set_startTestRunOperation p))
         (fun _ =>
            logError
              "Unable to start test run in the upstream reporter: " ;;
            fb <- this (@fallbackReporter R) ;;
            when (is_undefined fb)
              (update (set_disabled true) ;;
               StateManager_setMode (Some ModeEnum_off) ;;
               return_) ;;
            try_catch
              (p <- call_startTestRun Fallback ;;
               update (set_startTestRunOperation p) ;;
               o <- this (@options R) ;;
               StateManager_setMode (fallback o))
              (fun _ =>
                 logError
                   "Unable to start test run in the fallback reporter: " ;;
                 update (set_disabled true) ;;
                 StateManager_setMode (Some ModeEnum_off))))).

Definition startTestRunAsync : M unit :=
  fn (
    startTestRun ;;
    await_startTestRunOperation).

Definition addTestResultToFallback (result : TestResultType) : M unit :=
  fn (
    try_catch
      (call Fallback (OpAddTestResult result)
         (Reporter.addTestResult result) ;;
       o <- this (@options R) ;;
       StateManager_setMode (fallback o))
      (fun _ =>
         logError "Unable to add the result to the fallback reporter:" ;;
         update (set_disabled true) ;;
         StateManager_setMode (Some ModeEnum_off))).

Definition addTestResult (result : TestResultType) : M unit :=
  fn (
    d <- this (@disabled R) ;;
    when (negb d)
      (await_startTestRunOperation ;;
       logTestItem result ;;
       uf <- this (@useFallback R) ;;
       when uf (addTestResultToFallback result ;; return_) ;;
       try_catch
         (call Upstream (OpAddTestResult result)
            (Reporter.addTestResult result))
         (fun _ =>
            logError "Unable to add the result to the upstream reporter:" ;;
            fb <- this (@fallbackReporter R) ;;
            when (is_undefined fb)
              (update (set_disabled true) ;;
               StateManager_setMode (Some ModeEnum_off) ;;
               return_) ;;
            uf' <- this (@useFallback R) ;;
            when (negb uf') migrate ;;
            addTestResultToFallback result))).

Definition isCaptureLogs (q : QaseReporter R) : bool :=
  match captureLogs q with
  | Some b => b
  | None => false
  end.

Definition publishFallback : M unit :=
  fn (
    try_catch
      (call Fallback OpPublish Reporter.publish ;;
       o <- this (@options R) ;;
       StateManager_setMode (fallback o))
      (fun _ =>
         StateManager_setMode (Some ModeEnum_off) ;;
         logError
           "Unable to publish the run results to the fallback reporter:" ;;
         update (set_disabled true))).

Definition publish : M unit :=
  fn (
    d <- this (@disabled R) ;;
    when (negb d)
      (await_startTestRunOperation ;;
       logDebug "Publishing test run results" ;;
       uf <- this (@useFallback R) ;;
       when uf publishFallback ;;
       try_catch
         (call Upstream OpPublish Reporter.publish)
         (fun _ =>
            logError
              "Unable to publish the run results to the upstream reporter:" ;;
            fb <- this (@fallbackReporter R) ;;
            when (is_undefined fb)
              (update (set_disabled true) ;;
               StateManager_setMode (Some ModeEnum_off) ;;
               return_) ;;
            uf' <- this (@useFallback R) ;;
            when (negb uf') migrate ;;
            publishFallback)) ;;
    StateManager_clearState).

(** *** Sequences of calls made by the test runner *)

Inductive Call :=
| CallAddTestResult (result : TestResultType)
| CallStartTestRun
| CallStartTestRunAsync
| CallSendResults
| CallPublish
| CallComplete
| CallGetResults
| CallSetTestResults (results : list TestResultType).

Definition effect {A} (m : M A) (w : World R) : World R * list Event :=
  match m w with
  | (_, w', t) => (w', t)
  end.

Definition invoke (c : Call) : World R -> World R * list Event :=
  match c with
  | CallAddTestResult result => effect (addTestResult result)
  | CallStartTestRun => effect startTestRun
  | CallStartTestRunAsync => effect startTestRunAsync
  | CallSendResults => effect sendResults
  | CallPublish => effect publish
  | CallComplete => effect complete
  | CallGetResults => effect getResults
  | CallSetTestResults results => effect (setTestResults results)
  end.

Fixpoint run (cs : list Call) (w : World R) : World R * list Event :=
  match cs with
  | [] => (w, [])
  | c :: cs' =>
      match invoke c w with
      | (w1, t1) =>
          match run cs' w1 with
          | (w2, t2) => (w2, t1 ++ t2)
          end
      end
  end.

(** What [getResults()] answers in a given world. *)
Definition results_of (w : World R) : list TestResultType :=
  match getResults w with
  | (Normal l, _, _) => l
  | _ => []
  end.

(** *** The singleton *)

(** The process: the static field [QaseReporter.instance] (a reference,
    here the allocation number of the object, with the object it points
    to), the number of facade objects allocated so far, the environment
    and the run-state store. *)
Record Process := {
  instance : option (nat * QaseReporter R);
  allocated : nat;
  process_env : ProcessEnv;
  state_file : StateManager.Store
}.

Definition getInstance (opts : OptionsType) (p : Process)
  : nat * Process * list Event :=
  match instance p with
  | Some (ref, _) => (ref, p, [])
  | None =>
      match constructor opts (process_env p) (state_file p) with
      | (q, env', s', t) =>
          (allocated p,
           {| instance := Some (allocated p, q);
              allocated := S (allocated p);
              process_env := env';
              state_file := s' |},
           t)
      end
  end.

(** A method call made through the reference held in the static field. *)
Definition on_instance (c : Call) (p : Process) : Process * list Event :=
  match instance p with
  | None => (p, [])
  | Some (ref, q) =>
      match invoke c {| self := q; store := state_file p |} with
      | (w, t) =>
          ({| instance := Some (ref, self w);
              allocated := allocated p;
              process_env := process_env p;
              state_file := store w |},
           t)
      end
  end.

Inductive Action :=
| GetInstance (opts : OptionsType)
| Invoke (c : Call).

(** Runs the actions in order; the answers of the [getInstance] calls
    are collected. *)
Fixpoint act (acts : list Action) (p : Process) : list nat * Process :=
  match acts with
  | [] => ([], p)
  | GetInstance opts :: acts' =>
      match getInstance opts p with
      | (ref, p1, _) =>
          match act acts' p1 with
          | (refs, p2) => (ref :: refs, p2)
          end
      end
  | Invoke c :: acts' =>
      match on_instance c p with
      | (p1, _) => act acts' p1
      end
  end.

End WithBackend.

End QaseReporter.

(** ** Properties of lists of actions *)

Definition is_backend_call (e : Event) : bool :=
  match e with
  | EvCall _ _ _ => true
  | _ => false
  end.

Definition is_call_of (who : Role) (e : Event) : bool :=
  match e, who with
  | EvCall Upstream _ _, Upstream => true
  | EvCall Fallback _ _, Fallback => true
  | _, _ => false
  end.

Definition is_store_write (e : Event) : bool :=
  match e with
  | EvSetState _ | EvSetMode _ => true
  | _ => false
  end.

Definition no_backend_call (t : list Event) : bool :=
  forallb (fun e => negb (is_backend_call e)) t.

Definition no_call_of (who : Role) (t : list Event) : bool :=
  forallb (fun e => negb (is_call_of who e)) t.

Definition no_store_write (t : list Event) : bool :=
  forallb (fun e => negb (is_store_write e)) t.

(** The operations [publish()] and [sendResults()] forward. *)
Inductive Forwarded := FwdPublish | FwdSendResults.

Definition is_forwarded (k : Forwarded) (op : Op) : bool :=
  match k, op with
  | FwdPublish, OpPublish => true
  | FwdSendResults, OpSendResults => true
  | _, _ => false
  end.


Definition count_secondary (k : Forwarded) (t : list Event) : nat :=
  length
    (filter
       (fun e =>
          match e with
          | EvCall Fallback op _ => is_forwarded k op
          | _ => false
          end) t).


(** ** A scripted backend

    A backend whose fallible calls follow a script: each call consumes one
    entry, and an exhausted script means success.  A result is buffered when
    [addTestResult] succeeds. *)

Inductive Scripted_step := Good | Bad | Late.

Record Scripted := {
  buffer : list TestResultType;
  script : list Scripted_step
}.

Definition scripted_next (s : Scripted) : Scripted_step :=
  match script s with
  | [] => Good
  | x :: _ => x
  end.

Definition scripted_ok (s : Scripted) : bool :=
  match scripted_next s with
  | Good => true
  | _ => false
  end.

Definition scripted_advance (s : Scripted) : Scripted :=
  {| buffer := buffer s; script := tl (script s) |}.

Definition scripted_call (s : Scripted) : Scripted * bool :=
  (scripted_advance s, scripted_ok s).

Definition scripted_add (r : TestResultType) (s : Scripted)
  : Scripted * bool :=
  ({| buffer := if scripted_ok s then buffer s ++ [r] else buffer s;
      script := tl (script s) |},
   scripted_ok s).

Definition scripted_start (s : Scripted) : Scripted * StartResult :=
  (scripted_advance s,
   match scripted_next s with
   | Good => StartReturns Fulfils
   | Bad => StartThrows
   | Late => StartReturns Rejects
   end).

#[export] Instance Scripted_reporter
  : Reporter.InternalReporterInterface Scripted :=
  {| Reporter.getTestResults := buffer;
     Reporter.setTestResults :=
       fun l s => {| buffer := l; script := script s |};
     Reporter.startTestRun := scripted_start;
     Reporter.addTestResult := scripted_add;
     Reporter.sendResults := scripted_call;
     Reporter.publish := scripted_call;
     Reporter.complete := scripted_call;
     Reporter.getTestResults_setTestResults := fun _ _ => eq_refl |}.

Unset Implicit Arguments.

Definition is_log (e : Event) : bool :=
  match e with
  | EvLog _ | EvLogDebug _ | EvLogError _ => true
  | _ => false
  end.

Definition only_calls_and_logs (t : list Event) : bool :=
  forallb (fun e => is_backend_call e || is_log e) t.

Definition first_backend_call (t : list Event) : option Event :=
  find is_backend_call t.



(** ** Concrete runs *)

Module Demo.

(** Backend constructors that succeed and hand out a backend following
    the given script. *)
Definition scripted_new (sc : list Scripted_step) (_ : OptionsType)
  : option Scripted :=
  Some {| buffer := []; script := sc |}.

(** A configuration resolution in which the environment's mode wins over
    the caller's. *)
Definition env_over_options (o : OptionsType) (e : ProcessEnv)
  : OptionsType :=
  {| mode := match env_mode e with
             | Some m => Some m
             | None => mode o
             end;
     fallback := fallback o;
     captureLogs_opt := captureLogs_opt o;
     debug := debug o;
     testops_api_token := testops_api_token o;
     testops_project := testops_project o |}.

Definition no_env : ProcessEnv :=
  {| env_mode := None; env_run_id := None |}.

Definition options_for (m fb : option ModeEnum) (token : option string)
  : OptionsType :=
  {| mode := m;
     fallback := fb;
     captureLogs_opt := None;
     debug := None;
     testops_api_token := token;
     testops_project := Some "DEMO" |}.

Definition T1 : TestResultType := {| title := "T1"; status := passed |}.
Definition T2 : TestResultType := {| title := "T2"; status := failed |}.

(** The world after [new QaseReporter(opts)] in a fresh process with no
    run state on disk. *)
Definition construct (up fb : list Scripted_step) (opts : OptionsType)
  : World Scripted :=
  match QaseReporter.constructor (scripted_new up) (scripted_new fb)
          env_over_options opts no_env None with
  | (q, _, s, _) => {| self := q; store := s |}
  end.

Definition after (cs : list QaseReporter.Call) (w : World Scripted)
  : World Scripted :=
  fst (QaseReporter.run cs w).


(** testops upstream whose [publish] fails, no fallback configured. *)
Definition upstream_only : World Scripted :=
  construct [Bad] [] (options_for (Some "testops") None (Some "token")).

(** testops upstream, report fallback; the upstream's first two calls
    fail.  After one [addTestResult] the facade has flipped. *)
Definition flipped : World Scripted :=
  after [QaseReporter.CallAddTestResult T1]
    (construct [Bad; Bad] []
       (options_for (Some "testops") (Some "report") (Some "token"))).

(** Both backends fail on their first call. *)
Definition both_failing : World Scripted :=
  construct [Bad] [Bad]
    (options_for (Some "testops") (Some "report") (Some "token")).

(** testops upstream whose first two calls fail, report fallback whose
    second call fails.  After one [addTestResult] the facade has flipped,
    and the fallback's next call, its [publish], will fail. *)
Definition flipped_fallback_failing : World Scripted :=
  after [QaseReporter.CallAddTestResult T1]
    (construct [Bad; Bad] [Good; Bad]
       (options_for (Some "testops") (Some "report") (Some "token"))).


(** testops upstream whose first call fails, healthy report fallback. *)
Definition upstream_broken : World Scripted :=
  construct [Bad] []
    (options_for (Some "testops") (Some "report") (Some "token")).

Definition fresh_process : QaseReporter.Process (R:=Scripted) :=
  {| QaseReporter.instance := None;
     QaseReporter.allocated := 0;
     QaseReporter.process_env := no_env;
     QaseReporter.state_file := None |}.

End Demo.

(** ** More properties of lists of actions *)

(** [await p] throws. *)
Definition rejects (p : option Promise) : bool :=
  match p with
  | Some Rejects => true
  | _ => false
  end.

(** The fallback's buffer is overwritten. *)
Definition is_migration (e : Event) : bool :=
  match e with
  | EvCall Fallback (OpSetTestResults _) _ => true
  | _ => false
  end.

Definition no_migration (t : list Event) : bool :=
  forallb (fun e => negb (is_migration e)) t.

Definition is_facade_setTestResults (c : QaseReporter.Call) : bool :=
  match c with
  | QaseReporter.CallSetTestResults _ => true
  | _ => false
  end.

Definition is_complete (op : Op) : bool :=
  match op with
  | OpComplete => true
  | _ => false
  end.

Definition is_addTestResult (op : Op) : bool :=
  match op with
  | OpAddTestResult _ => true
  | _ => false
  end.

(** The fallback is touched only once a failed call of the upstream's
    operation (recognised by [isop]) has been seen. *)
Fixpoint fallback_after_failed (isop : Op -> bool) (seen : bool)
    (t : list Event) : bool :=
  match t with
  | [] => true
  | EvCall Upstream op ok :: t' =>
      fallback_after_failed isop (seen || (isop op && negb ok)) t'
  | EvCall Fallback _ _ :: t' => seen && fallback_after_failed isop seen t'
  | _ :: t' => fallback_after_failed isop seen t'
  end.

Definition count_fallback (isop : Op -> bool) (t : list Event) : nat :=
  length
    (filter
       (fun e =>
          match e with
          | EvCall Fallback op _ => isop op
          | _ => false
          end) t).

Definition count_upstream (isop : Op -> bool) (t : list Event) : nat :=
  length
    (filter
       (fun e =>
          match e with
          | EvCall Upstream op _ => isop op
          | _ => false
          end) t).

(** ** The Playwright helpers *)

Module Playwright.

Set Implicit Arguments.

Definition ReporterContentType : string := "application/qase.metadata+json".
Definition defaultContentType : string := "application/octet-stream".

(** [Buffer | string] *)
Inductive Body :=
| BodyString (s : string)
| BodyBuffer (b : list Byte.byte).

(** [if (body)]: a Buffer is an object, hence truthy even when empty. *)
Definition truthy_body (b : option Body) : bool :=
  match b with
  | Some (BodyString s) => negb (String.eqb s EmptyString)
  | Some (BodyBuffer _) => true
  | None => false
  end.

(** [string | string[]] *)
Inductive Paths :=
| OnePath (p : string)
| ManyPaths (ps : list string).

Record AttachOptions := {
  name : option string;
  paths : option Paths;
  content : option Body;
  contentType : option string
}.

(** What [test.info().attach(stepName, ...)] receives. *)
Inductive Source :=
| FromPath (p : string)
| FromBody (b : Body).

Record Attached := {
  attached_name : string;
  attached_contentType : string;
  attached_source : Source
}.

(** One [test.step(stepName, ...)]: its name and what its body attached. *)
Record Step := {
  stepName : string;
  attached : option Attached
}.

Section WithEnvironment.

(** [path.basename], [getMimeTypes] and the identifiers [uuidv4()] hands
    out (the n-th call answers [uuidv4 n]) are external. *)
Variable basename : string -> string.
Variable getMimeTypes : string -> string.
Variable uuidv4 : nat -> string.

(** [addAttachment(name, contentType, filePath, body)], as the [n]-th user
    of [uuidv4]. *)
Definition addAttachment (name contentType : string)
    (filePath : option string) (body : option Body) (n : nat) : Step :=
  let stepName := ("step_attach_" ++ uuidv4 n ++ "_" ++ name)%string in
  {| stepName := stepName;
     attached :=
       match filePath with
       | Some p =>
           if truthy_string filePath then
             Some {| attached_name := stepName;
                     attached_contentType := contentType;
                     attached_source := FromPath p |}
           else
             match body with
             | Some b =>
                 if truthy_body body then
                   Some {| attached_name := stepName;
                           attached_contentType := contentType;
                           attached_source := FromBody b |}
                 else None
             | None => None
             end
       | None =>
           match body with
           | Some b =>
               if truthy_body body then
                 Some {| attached_name := stepName;
                         attached_contentType := contentType;
                         attached_source := FromBody b |}
               else None
           | None => None
           end
       end |}.

(** [for (const file of files) { ... addAttachment(...) }] *)
Fixpoint attach_files (files : list string) (n : nat) : list Step :=
  match files with
  | [] => []
  | file :: files' =>
      let attachmentName := basename file in
      let contentType := getMimeTypes file in
      addAttachment attachmentName contentType (Some file) None n
        :: attach_files files' (S n)
  end.

(** [qase.attach(attach)]: the steps it runs, in order, and the number of
    identifiers used so far. *)
Definition attach (a : AttachOptions) (n : nat) : list Step * nat :=
  match paths a with
  | Some ps =>
      let files :=
        match ps with
        | OnePath p => [p]
        | ManyPaths l => l
        end in
      (attach_files files n, n + length files)
  | None =>
      let attachmentName :=
        match name a with
        | Some s => s
        | None => "attachment"
        end in
      let contentType :=
        match contentType a with
        | Some s => s
        | None => defaultContentType
        end in
      ([addAttachment attachmentName contentType None (content a) n], S n)
  end.

End WithEnvironment.

Section WithNumbers.

(** JavaScript numbers with the two builtins the code applies to them. *)
Variable Number : Type.
Variable parseInt : string -> Number.
Variable isNaN : Number -> bool.

Inductive CaseId :=
| IdNumber (n : Number)
| IdString (s : string).

(** [number | string | number[] | string[]] *)
Inductive CaseIds :=
| Single (c : CaseId)
| Several (cs : list CaseId).

Inductive ConsoleLine :=
| LogDeprecated
| LogShouldBeNumber (id : string).

(** The loop of [qase]: the ids pushed and the lines logged. *)
Fixpoint collect_ids (caseIds : list CaseId)
  : list Number * list ConsoleLine :=
  match caseIds with
  | [] => ([], [])
  | id :: rest =>
      let (ids, logs) := collect_ids rest in
      match id with
      | IdNumber n => (n :: ids, logs)
      | IdString s =>
          let parsedId := parseInt s in
          if negb (isNaN parsedId) then (parsedId :: ids, logs)
          else (ids, LogShouldBeNumber s :: logs)
      end
  end.

Record QaseCall := {
  console : list ConsoleLine;
  addIds : list Number * string;
  returned : string
}.

(** [qase(caseId, name)] (deprecated): what it logs, what it hands to
    [PlaywrightQaseReporter.addIds] and what it returns. *)
Definition qase (caseId : CaseIds) (name : string) : QaseCall :=
  let caseIds :=
    match caseId with
    | Single c => [c]
    | Several cs => cs
    end in
  let (ids, logs) := collect_ids caseIds in
  {| console := LogDeprecated :: logs;
     addIds := (ids, name);
     returned := name |}.

End WithNumbers.

Unset Implicit Arguments.

End Playwright.

(** ** Proof automation *)

(** Unfolds the facade down to the calls on the backends. *)
Ltac facade_unfold :=
  cbv -[Reporter.getTestResults Reporter.setTestResults Reporter.startTestRun
        Reporter.addTestResult Reporter.sendResults Reporter.publish
        Reporter.complete QaseReporter.createReporter
        QaseReporter.env_from_state or_off].

Ltac facade_unfold_in H :=
  cbv -[Reporter.getTestResults Reporter.setTestResults Reporter.startTestRun
        Reporter.addTestResult Reporter.sendResults Reporter.publish
        Reporter.complete QaseReporter.createReporter
        QaseReporter.env_from_state or_off] in H.

(** Splits on the next flag, reference or backend answer the code tests. *)
Ltac facade_case :=
  match goal with
  | |- context [match ?x with _ => _ end] =>
      is_var x; destruct x
  | |- context [match Reporter.startTestRun ?r with _ => _ end] =>
      destruct (Reporter.startTestRun r) as [? [|[|]]] eqn:?
  | |- context [match Reporter.addTestResult ?x ?r with _ => _ end] =>
      destruct (Reporter.addTestResult x r) as [? [|]] eqn:?
  | |- context [match Reporter.sendResults ?r with _ => _ end] =>
      destruct (Reporter.sendResults r) as [? [|]] eqn:?
  | |- context [match Reporter.publish ?r with _ => _ end] =>
      destruct (Reporter.publish r) as [? [|]] eqn:?
  | |- context [match Reporter.complete ?r with _ => _ end] =>
      destruct (Reporter.complete r) as [? [|]] eqn:?
  | |- context [match QaseReporter.createReporter ?a ?b ?m ?o with
                | _ => _ end] =>
      destruct (QaseReporter.createReporter a b m o) as [[|]|?] eqn:?
  end.

Ltac facade_cases := facade_unfold; repeat (facade_case; facade_unfold).

Ltac open_world w :=
  let up := fresh "up" in
  let fb := fresh "fb" in
  let cl := fresh "cl" in
  let d := fresh "d" in
  let uf := fresh "uf" in
  let p := fresh "p" in
  let o := fresh "o" in
  let st := fresh "st" in
  destruct w as [[up fb cl d uf p o] st].

(** ** Invariants of the facade *)

Section Invariants.

Context {R : Type} `{Reporter.InternalReporterInterface R}.

Lemma no_backend_call_app (t1 t2 : list Event) :
  no_backend_call (t1 ++ t2) = no_backend_call t1 && no_backend_call t2.
Proof. apply forallb_app. Qed.

Lemma no_call_of_app (who : Role) (t1 t2 : list Event) :
  no_call_of who (t1 ++ t2) = no_call_of who t1 && no_call_of who t2.
Proof. apply forallb_app. Qed.

(** A disabled facade ignores every call: the object is left as it is
    and no backend is reached. *)
Lemma invoke_disabled (c : QaseReporter.Call) (w : World R) :
  disabled (self w) = true ->
  self (fst (QaseReporter.invoke c w)) = self w /\
  no_backend_call (snd (QaseReporter.invoke c w)) = true.
Proof.
  open_world w; simpl; intros ->.
  destruct c; facade_cases; split; reflexivity.
Qed.

Lemma run_disabled (cs : list QaseReporter.Call) (w : World R) :
  disabled (self w) = true ->
  self (fst (QaseReporter.run cs w)) = self w /\
  no_backend_call (snd (QaseReporter.run cs w)) = true.
Proof.
  revert w; induction cs as [|c cs IH]; intros w Hd; simpl.
  - split; reflexivity.
  - destruct (invoke_disabled c w Hd) as [Hs Ht].
    destruct (QaseReporter.invoke c w) as [w1 t1]; simpl in Hs, Ht.
    assert (Hd1 : disabled (self w1) = true) by (rewrite Hs; exact Hd).
    destruct (IH w1 Hd1) as [Hs' Ht'].
    destruct (QaseReporter.run cs w1) as [w2 t2]; simpl in *.
    split.
    + congruence.
    + rewrite no_backend_call_app, Ht, Ht'; reflexivity.
Qed.

(** The configuration is never reassigned by a method. *)
Lemma invoke_options (c : QaseReporter.Call) (w : World R) :
  options (self (fst (QaseReporter.invoke c w))) = options (self w).
Proof.
  open_world w; destruct c; facade_cases; reflexivity.
Qed.

(** [useFallback] is never reset. *)
Lemma invoke_useFallback (c : QaseReporter.Call) (w : World R) :
  useFallback (self w) = true ->
  useFallback (self (fst (QaseReporter.invoke c w))) = true.
Proof.
  open_world w; simpl; intros ->.
  destruct c; facade_cases; reflexivity.
Qed.

(** [disabled] is never reset. *)
Lemma invoke_disabled_mono (c : QaseReporter.Call) (w : World R) :
  disabled (self w) = true ->
  disabled (self (fst (QaseReporter.invoke c w))) = true.
Proof.
  intros Hd; destruct (invoke_disabled c w Hd) as [-> _]; exact Hd.
Qed.

(** Once the secondary is authoritative, [addTestResult] leaves the
    primary alone. *)
Lemma addTestResult_flipped (r : TestResultType) (w : World R) :
  useFallback (self w) = true ->
  no_call_of Upstream
    (snd (QaseReporter.invoke (QaseReporter.CallAddTestResult r) w)) = true.
Proof.
  open_world w; simpl; intros ->.
  facade_cases; reflexivity.
Qed.

Lemma run_addTestResult_flipped (rs : list TestResultType) (w : World R) :
  useFallback (self w) = true ->
  no_call_of Upstream
    (snd (QaseReporter.run (map QaseReporter.CallAddTestResult rs) w))
  = true.
Proof.
  revert w; induction rs as [|r rs IH]; intros w Hu; simpl.
  - reflexivity.
  - pose proof (addTestResult_flipped r w Hu) as Ht.
    pose proof (invoke_useFallback (QaseReporter.CallAddTestResult r) w Hu)
      as Hu1.
    simpl in Ht, Hu1.
    destruct (QaseReporter.effect (QaseReporter.addTestResult r) w)
      as [w1 t1]; simpl in Ht, Hu1.
    specialize (IH w1 Hu1).
    destruct (QaseReporter.run (map QaseReporter.CallAddTestResult rs) w1)
      as [w2 t2]; simpl in *.
    rewrite no_call_of_app, Ht, IH; reflexivity.
Qed.

End Invariants.

(** ** The methods *)

Section Methods.

Context {R : Type} `{Reporter.InternalReporterInterface R}.

(** C7. [complete()] clears the persisted run state as its first action,
    before any backend is reached; whatever the backends answer afterwards
    (also when both fail) it only calls backends and logs: it writes
    nothing to the store, which stays cleared, it leaves [disabled] as it
    was, and it returns normally. *)
Theorem complete_clears_first_then_only_logs (w : World R) :
  match QaseReporter.complete w with
  | (c, w', t) =>
      exists t',
        t = EvClearState :: t' /\
        only_calls_and_logs t' = true /\
        no_store_write t' = true /\
        store w' = None /\
        disabled (self w') = disabled (self w) /\
        c = Normal tt
  end.
Proof.
  open_world w.
  facade_cases; eexists; repeat split.
Qed.

(** C8. An [addTestResult] call on a facade that is not disabled starts
    by awaiting the pending start-of-run operation, so every backend
    call it makes comes after that await; when the awaited operation
    rejects, the call ends there and no backend sees the result. *)
Theorem addTestResult_awaits_start_first (r : TestResultType)
    (w : World R) :
  disabled (self w) = false ->
  match QaseReporter.addTestResult r w with
  | (c, w', t) =>
      exists t',
        t = EvAwait (startTestRunOperation (self w)) :: t' /\
        (startTestRunOperation (self w) = Some Rejects ->
         c = Throw Error /\ t' = [] /\ w' = w)
  end.
Proof.
  open_world w; simpl; intros ->.
  facade_cases; eexists; split; try reflexivity;
    intros E; try discriminate E; repeat split.
Qed.

(** C5. When [sendResults()] fails on the upstream reporter and either
    there is no fallback reporter or the fallback fails too, the facade
    stays enabled and the store holds [Mode = off] (with
    [IsModeChanged] set). *)
Theorem sendResults_failures_keep_enabled (w : World R) (u u' : R) :
  disabled (self w) = false ->
  upstreamReporter (self w) = Some u ->
  Reporter.sendResults u = (u', false) ->
  match fallbackReporter (self w) with
  | None => True
  | Some f =>
      snd (Reporter.sendResults
             (if useFallback (self w) then f
              else Reporter.setTestResults (Reporter.getTestResults u') f))
      = false
  end ->
  match QaseReporter.sendResults w with
  | (c, w', t) =>
      c = Normal tt /\
      disabled (self w') = false /\
      (exists t0, t = t0 ++ [EvSetMode (Some ModeEnum_off)]) /\
      store w' = StateManager.setMode (Some ModeEnum_off) (store w) /\
      exists st,
        store w' = Some st /\
        Mode st = Some ModeEnum_off /\
        IsModeChanged st = Some true
  end.
Proof.
  assert (Hlast : forall (t : list Event) (e : Event),
            t <> [] -> last t e = EvSetMode (Some ModeEnum_off) ->
            exists t0, t = t0 ++ [EvSetMode (Some ModeEnum_off)]).
  { intros t e Hne Hl. exists (removelast t).
    rewrite <- Hl. apply app_removelast_last. exact Hne. }
  open_world w; simpl; intros -> -> Hu Hf.
  facade_unfold. rewrite Hu. facade_unfold.
  destruct fb as [f|]; facade_unfold.
  - destruct uf; facade_unfold; facade_unfold_in Hf.
    + destruct (Reporter.sendResults f) as [f' ok]; simpl in Hf; subst ok.
      destruct st; facade_unfold; repeat split;
        try (apply (Hlast _ EvClearState); [discriminate|reflexivity]);
        eexists; repeat split.
    + destruct (Reporter.sendResults
                  (Reporter.setTestResults (Reporter.getTestResults u') f))
        as [f' ok]; simpl in Hf; subst ok.
      destruct st; facade_unfold; repeat split;
        try (apply (Hlast _ EvClearState); [discriminate|reflexivity]);
        eexists; repeat split.
  - destruct st; repeat split;
      try (apply (Hlast _ EvClearState); [discriminate|reflexivity]);
      eexists; repeat split.
Qed.

(** X26. [publish()] does clear the run state when the facade was already
    disabled, and when a fallback reporter exists and the awaited
    start-of-run operation does not reject. *)
Lemma publish_clears_state (w : World R) :
  disabled (self w) = true \/
  (startTestRunOperation (self w) <> Some Rejects /\
   fallbackReporter (self w) <> None) ->
  match QaseReporter.publish w with
  | (c, w', _) => c = Normal tt /\ store w' = None
  end.
Proof.
  open_world w; simpl; intros [->|[Hp Hf]].
  - split; reflexivity.
  - destruct fb as [f|]; [|exfalso; apply Hf; reflexivity].
    destruct p as [[|]|]; try (exfalso; apply Hp; reflexivity);
      facade_cases; split; reflexivity.
Qed.

End Methods.

Section Failover.

Context {R : Type} `{Reporter.InternalReporterInterface R}.

(** C4. [addTestResult(result)] fails on the upstream reporter while a
    fallback reporter exists and the facade has not flipped yet.  Then the
    results the upstream holds at that moment are written into the
    fallback with [setTestResults] before the result is handed to the
    fallback (so the fallback's buffer equals the upstream's when the
    result arrives there); [useFallback] is true afterwards; when the
    fallback accepts the result the facade stays enabled and the store's
    [Mode] is the configured fallback; and no later [addTestResult]
    reaches the upstream again: the next one goes to the fallback right
    after the await and the log line. *)
Theorem addTestResult_fails_over (r : TestResultType) (w : World R)
    (u u' f : R) :
  disabled (self w) = false ->
  useFallback (self w) = false ->
  startTestRunOperation (self w) <> Some Rejects ->
  upstreamReporter (self w) = Some u ->
  Reporter.addTestResult r u = (u', false) ->
  fallbackReporter (self w) = Some f ->
  let f1 := Reporter.setTestResults (Reporter.getTestResults u') f in
  let f2 := fst (Reporter.addTestResult r f1) in
  let ok := snd (Reporter.addTestResult r f1) in
  match QaseReporter.addTestResult r w with
  | (c, w', t) =>
      t = [EvAwait (startTestRunOperation (self w));
           EvLog r;
           EvCall Upstream (OpAddTestResult r) false;
           EvLogError "Unable to add the result to the upstream reporter:";
           EvCall Upstream OpGetTestResults true;
           EvCall Fallback (OpSetTestResults (Reporter.getTestResults u'))
             true;
           EvCall Fallback (OpAddTestResult r) ok]
          ++ (if ok then [EvSetMode (fallback (options (self w)))]
              else [EvLogError
                      "Unable to add the result to the fallback reporter:";
                    EvSetMode (Some ModeEnum_off)]) /\
      Reporter.getTestResults f1 = Reporter.getTestResults u' /\
      upstreamReporter (self w') = Some u' /\
      fallbackReporter (self w') = Some f2 /\
      useFallback (self w') = true /\
      (ok = true ->
       disabled (self w') = false /\
       store w' =
         StateManager.setMode (fallback (options (self w))) (store w) /\
       forall r2 : TestResultType,
         match QaseReporter.addTestResult r2 w' with
         | (_, _, t2) =>
             exists t2',
               t2 = [EvAwait (startTestRunOperation (self w));
                     EvLog r2;
                     EvCall Fallback (OpAddTestResult r2)
                       (snd (Reporter.addTestResult r2 f2))] ++ t2' /\
               no_call_of Upstream t2 = true
         end) /\
      forall rs : list TestResultType,
        no_call_of Upstream
          (snd (QaseReporter.run (map QaseReporter.CallAddTestResult rs)
                  w')) = true
  end.
Proof.
  open_world w; simpl.
  intros -> -> Hp -> Hu ->.
  assert (Hflip :
    forall w' : World R, useFallback (self w') = true ->
      forall rs, no_call_of Upstream
        (snd (QaseReporter.run (map QaseReporter.CallAddTestResult rs) w'))
        = true)
    by (intros w' Hw rs; apply run_addTestResult_flipped; exact Hw).
  destruct (QaseReporter.addTestResult r _) as [[c w'] t] eqn:E.
  revert E. facade_unfold. rewrite Hu. facade_unfold.
  destruct (Reporter.addTestResult r
              (Reporter.setTestResults (Reporter.getTestResults u') f))
    as [f2 ok] eqn:E2.
  assert (Hawait : forall A (a b : A),
    match p with Some Rejects => a | _ => b end = b).
  { intros A a b; destruct p as [[|]|]; try reflexivity.
    exfalso; apply Hp; reflexivity. }
  rewrite Hawait.
  destruct ok; facade_unfold; intros E; injection E as <- <- <-;
    simpl; repeat split;
    try apply Reporter.getTestResults_setTestResults;
    try (intros; discriminate);
    try (apply Hflip; reflexivity).
  intros r2. facade_unfold. rewrite Hawait.
  destruct (Reporter.addTestResult r2 f2) as [f3 [|]];
    facade_unfold; eexists; split; reflexivity.
Qed.

(** X28. A facade that is disabled when a sequence of calls starts stays
    disabled and never reaches a backend: whatever calls follow, the
    facade object is left exactly as it was, no backend call appears among
    the actions, and [getResults()] keeps answering the empty list.  This
    is the state [startTestRun()] leaves on an enabled facade when the
    upstream reporter throws at the call and the fallback is absent or
    throws at the call too. *)
Theorem disabled_is_final :
  (forall (w : World R) (cs : list QaseReporter.Call),
      disabled (self w) = true ->
      match QaseReporter.run cs w with
      | (w', t) =>
          disabled (self w') = true /\
          self w' = self w /\
          no_backend_call t = true /\
          QaseReporter.results_of w' = QaseReporter.results_of w /\
          length (QaseReporter.results_of w') = 0
      end) /\
  (forall (w : World R) (u u' : R),
      disabled (self w) = false ->
      upstreamReporter (self w) = Some u ->
      Reporter.startTestRun u = (u', StartThrows) ->
      match fallbackReporter (self w) with
      | None => True
      | Some f => snd (Reporter.startTestRun f) = StartThrows
      end ->
      match QaseReporter.startTestRun w with
      | (_, w', _) => disabled (self w') = true
      end).
Proof.
  split.
  - intros w cs Hd.
    destruct (run_disabled cs w Hd) as [Hs Ht].
    destruct (QaseReporter.run cs w) as [w' t]; simpl in Hs, Ht.
    assert (Hd' : disabled (self w') = true) by (rewrite Hs; exact Hd).
    assert (Hnil : forall x : World R, disabled (self x) = true ->
              QaseReporter.results_of x = []).
    { intros x Hx; open_world x; simpl in Hx; subst; reflexivity. }
    rewrite (Hnil w' Hd'), (Hnil w Hd).
    repeat split; assumption.
  - intros w u u' Hd Eu Hu Hf.
    open_world w; simpl in *; subst.
    facade_unfold. rewrite Hu. facade_unfold.
    destruct fb as [f|]; facade_unfold; [|reflexivity].
    destruct (Reporter.startTestRun f) as [f' s]; simpl in Hf; subst s.
    reflexivity.
Qed.


End Failover.

(** ** Construction and the singleton *)

Section Construction.

Context {R : Type} `{Reporter.InternalReporterInterface R}.
Variable newTestOpsReporter : OptionsType -> option R.
Variable newReportReporter : OptionsType -> option R.
Variable composeOptions : OptionsType -> ProcessEnv -> OptionsType.

Lemma createReporter_off (o : OptionsType) :
  QaseReporter.createReporter newTestOpsReporter newReportReporter
    (or_off None) o = inl DisabledException.
Proof. reflexivity. Qed.

(** The constructor stores the resolved configuration. *)
Lemma constructor_options (opts : OptionsType) (env : ProcessEnv)
    (s : StateManager.Store) :
  match QaseReporter.constructor newTestOpsReporter newReportReporter
          composeOptions opts env s with
  | (q, env', _, _) =>
      options q =
        composeOptions opts (QaseReporter.env_from_state s env) /\
      env' = QaseReporter.env_from_state s env
  end.
Proof.
  facade_unfold.
  destruct (composeOptions opts (QaseReporter.env_from_state s env))
    as [m fbm cl dbg tok prj].
  destruct fbm, s; facade_cases; split; reflexivity.
Qed.

(** X27. As the constructor is written, an object without upstream
    reporter is always disabled. *)
Lemma constructor_without_upstream_is_disabled (opts : OptionsType)
    (env : ProcessEnv) (s : StateManager.Store) :
  match QaseReporter.constructor newTestOpsReporter newReportReporter
          composeOptions opts env s with
  | (q, _, _, _) => upstreamReporter q = None -> disabled q = true
  end.
Proof.
  facade_unfold.
  destruct (composeOptions opts (QaseReporter.env_from_state s env))
    as [m fbm cl dbg tok prj].
  destruct fbm as [fm|].
  - destruct s; facade_cases; intros E; try reflexivity; discriminate E.
  - rewrite createReporter_off.
    destruct s; facade_cases; intros E; try reflexivity; discriminate E.
Qed.

(** C1.  What the constructor does when building the upstream reporter
    fails with an error other than the disabled signal: with a fallback
    mode configured it sets [disabled] and returns at once
    ([useFallback] stays false, no fallback reporter is built, the store
    is not written); without one it sets [useFallback], and the fallback
    construction for mode off then disables the facade as well. *)
Theorem constructor_upstream_error (opts : OptionsType) (env : ProcessEnv)
    (s : StateManager.Store) :
  let co := composeOptions opts (QaseReporter.env_from_state s env) in
  QaseReporter.createReporter newTestOpsReporter newReportReporter
    (or_off (mode co)) co = inl Error ->
  match QaseReporter.constructor newTestOpsReporter newReportReporter
          composeOptions opts env s with
  | (q, _, s', _) =>
      upstreamReporter q = None /\
      fallbackReporter q = None /\
      disabled q = true /\
      (fallback co <> None -> useFallback q = false /\ s' = s) /\
      (fallback co = None -> useFallback q = true)
  end.
Proof.
  intros co Hc; subst co. facade_unfold.
  destruct (composeOptions opts (QaseReporter.env_from_state s env))
    as [m fbm cl dbg tok prj].
  cbn [mode] in Hc. rewrite Hc. facade_unfold.
  destruct fbm as [fm|].
  - repeat split; try reflexivity; intros; congruence.
  - rewrite createReporter_off. facade_unfold.
    destruct s; facade_unfold; repeat split; try reflexivity;
      intros; congruence.
Qed.

Lemma on_instance_keeps (c : QaseReporter.Call)
    (p : QaseReporter.Process (R:=R)) (ref : nat) (q : QaseReporter R) :
  QaseReporter.instance p = Some (ref, q) ->
  match QaseReporter.on_instance c p with
  | (p', _) =>
      QaseReporter.allocated p' = QaseReporter.allocated p /\
      exists q',
        QaseReporter.instance p' = Some (ref, q') /\
        options q' = options q
  end.
Proof.
  intros Hi. unfold QaseReporter.on_instance. rewrite Hi.
  pose proof (invoke_options c
                {| self := q; store := QaseReporter.state_file p |}) as Ho.
  destruct (QaseReporter.invoke c _) as [w t]; simpl in *.
  split; [reflexivity|]. exists (self w); split; [reflexivity|exact Ho].
Qed.

Lemma act_memoized (acts : list QaseReporter.Action) :
  forall (p : QaseReporter.Process (R:=R)) (ref : nat) (q : QaseReporter R),
    QaseReporter.instance p = Some (ref, q) ->
    match QaseReporter.act newTestOpsReporter newReportReporter
            composeOptions acts p with
    | (refs, p') =>
        Forall (eq ref) refs /\
        QaseReporter.allocated p' = QaseReporter.allocated p /\
        exists q',
          QaseReporter.instance p' = Some (ref, q') /\
          options q' = options q
    end.
Proof.
  induction acts as [|a acts IH]; intros p ref q Hi; simpl.
  - split; [constructor|]. split; [reflexivity|].
    exists q; split; [exact Hi|reflexivity].
  - destruct a as [opts|c].
    + unfold QaseReporter.getInstance at 1. rewrite Hi.
      specialize (IH p ref q Hi).
      destruct (QaseReporter.act newTestOpsReporter newReportReporter
                  composeOptions acts p) as [refs p'].
      destruct IH as (Hf & Ha & q' & Hq & Ho).
      split; [constructor; [reflexivity|exact Hf]|].
      split; [exact Ha|]. exists q'; split; assumption.
    + pose proof (on_instance_keeps c p ref q Hi) as Hk.
      destruct (QaseReporter.on_instance c p) as [p1 t1].
      destruct Hk as (Ha1 & q1 & Hq1 & Ho1).
      specialize (IH p1 ref q1 Hq1).
      destruct (QaseReporter.act newTestOpsReporter newReportReporter
                  composeOptions acts p1) as [refs p'].
      destruct IH as (Hf & Ha & q' & Hq & Ho).
      split; [exact Hf|]. split; [congruence|].
      exists q'; split; [exact Hq|congruence].
Qed.

(** C9. [getInstance] memoizes: on a process whose static field is still
    empty the first call constructs the object from its own options; after
    that, whatever [getInstance] calls (with any options) and method calls
    follow, every [getInstance] answers the reference of that first
    object, no other object is constructed, and the configuration of the
    object is still the one resolved from the first call's options. *)
Theorem getInstance_memoizes (optsA : OptionsType)
    (p : QaseReporter.Process (R:=R)) (acts : list QaseReporter.Action) :
  QaseReporter.instance p = None ->
  match QaseReporter.getInstance newTestOpsReporter newReportReporter
          composeOptions optsA p with
  | (ref, p1, _) =>
      ref = QaseReporter.allocated p /\
      QaseReporter.allocated p1 = S (QaseReporter.allocated p) /\
      match QaseReporter.act newTestOpsReporter newReportReporter
              composeOptions acts p1 with
      | (refs, p2) =>
          Forall (eq ref) refs /\
          QaseReporter.allocated p2 = QaseReporter.allocated p1 /\
          exists q,
            QaseReporter.instance p2 = Some (ref, q) /\
            options q =
              composeOptions optsA
                (QaseReporter.env_from_state (QaseReporter.state_file p)
                   (QaseReporter.process_env p))
      end
  end.
Proof.
  intros Hn. unfold QaseReporter.getInstance. rewrite Hn.
  pose proof (constructor_options optsA (QaseReporter.process_env p)
                (QaseReporter.state_file p)) as Hc.
  destruct (QaseReporter.constructor newTestOpsReporter newReportReporter
          composeOptions optsA (QaseReporter.process_env p)
              (QaseReporter.state_file p)) as [[[q env'] s'] t].
  destruct Hc as [Ho _].
  split; [reflexivity|]. split; [reflexivity|].
  pose proof (act_memoized acts
                {| QaseReporter.instance :=
                     Some (QaseReporter.allocated p, q);
                   QaseReporter.allocated := S (QaseReporter.allocated p);
                   QaseReporter.process_env := env';
                   QaseReporter.state_file := s' |}
                (QaseReporter.allocated p) q eq_refl) as Hm.
  destruct (QaseReporter.act newTestOpsReporter newReportReporter
              composeOptions acts _) as [refs p2].
  destruct Hm as (Hf & Ha & q' & Hq & Ho').
  split; [exact Hf|]. split; [exact Ha|].
  exists q'; split; [exact Hq|congruence].
Qed.

End Construction.

Section Reachable.

Context {R : Type} `{Reporter.InternalReporterInterface R}.
Variable newTestOpsReporter : OptionsType -> option R.
Variable newReportReporter : OptionsType -> option R.
Variable composeOptions : OptionsType -> ProcessEnv -> OptionsType.





End Reachable.

(** ** The methods on concrete runs *)

(** C2. A facade built for a testops upstream without fallback, whose
    upstream [publish] fails: [publish()] disables the facade, writes
    [Mode = off] and returns before the run state is cleared, so the store
    still holds a record afterwards. *)
Example publish_without_fallback_leaves_state :
  disabled (self Demo.upstream_only) = false /\
  fallbackReporter (self Demo.upstream_only) = None /\
  match QaseReporter.publish Demo.upstream_only with
  | (c, w', t) =>
      c = Normal tt /\
      t = [EvAwait None;
           EvLogDebug "Publishing test run results";
           EvCall Upstream OpPublish false;
           EvLogError
             "Unable to publish the run results to the upstream reporter:";
           EvSetMode (Some ModeEnum_off)] /\
      disabled (self w') = true /\
      StateManager.isStateExists (store w') = true /\
      store w' =
        Some {| RunId := None;
                Mode := Some ModeEnum_off;
                IsModeChanged := Some true |}
  end.
Proof. vm_compute. repeat split. Qed.



Lemma addTestResult_awaits_start_first_witness :
  disabled (self Demo.both_failing) = false /\
  exists t',
    snd (QaseReporter.addTestResult Demo.T1 Demo.both_failing) =
      EvAwait None :: t'.
Proof.
  split; [reflexivity|].
  destruct (addTestResult_awaits_start_first Demo.T1 Demo.both_failing
              eq_refl) as [t' [Ht _]].
  exists t'. exact Ht.
Defined.

Lemma sendResults_failures_keep_enabled_witness :
  disabled (self Demo.both_failing) = false /\
  match QaseReporter.sendResults Demo.both_failing with
  | (_, w', _) =>
      disabled (self w') = false /\
      store w' =
        Some {| RunId := None;
                Mode := Some ModeEnum_off;
                IsModeChanged := Some true |}
  end.
Proof.
  split; [reflexivity|].
  pose proof (sendResults_failures_keep_enabled Demo.both_failing
                {| buffer := []; script := [Bad] |}
                {| buffer := []; script := [] |}
                eq_refl eq_refl eq_refl eq_refl) as Hs.
  destruct (QaseReporter.sendResults Demo.both_failing) as [[c w'] t].
  destruct Hs as (_ & Hd & _ & Hst & _).
  split; [exact Hd|exact Hst].
Defined.

Lemma addTestResult_fails_over_witness :
  match QaseReporter.addTestResult Demo.T1
          (Demo.construct [Bad; Bad] []
             (Demo.options_for (Some "testops") (Some "report")
                (Some "token"))) with
  | (_, w', _) =>
      useFallback (self w') = true /\
      fallbackReporter (self w') =
        Some {| buffer := [Demo.T1]; script := [] |}
  end.
Proof.
  pose proof (addTestResult_fails_over Demo.T1
                (Demo.construct [Bad; Bad] []
                   (Demo.options_for (Some "testops") (Some "report")
                      (Some "token")))
                {| buffer := []; script := [Bad; Bad] |}
                {| buffer := []; script := [Bad] |}
                {| buffer := []; script := [] |}
                eq_refl eq_refl
                (fun E => ltac:(discriminate E))
                eq_refl eq_refl eq_refl) as Hf.
  cbv zeta in Hf.
  destruct (QaseReporter.addTestResult Demo.T1 _) as [[c w'] t].
  destruct Hf as (_ & _ & _ & Hfb & Hu & _).
  split; [exact Hu|exact Hfb].
Defined.

Lemma disabled_is_final_witness :
  match QaseReporter.startTestRun Demo.both_failing with
  | (_, w', _) =>
      disabled (self w') = true /\
      no_backend_call
        (snd (QaseReporter.run
                [QaseReporter.CallAddTestResult Demo.T1;
                 QaseReporter.CallStartTestRun;
                 QaseReporter.CallAddTestResult Demo.T2;
                 QaseReporter.CallSendResults;
                 QaseReporter.CallPublish] w')) = true
  end.
Proof.
  pose proof (proj2 disabled_is_final Demo.both_failing
                {| buffer := []; script := [Bad] |}
                {| buffer := []; script := [] |}
                eq_refl eq_refl eq_refl eq_refl) as Hd.
  destruct (QaseReporter.startTestRun Demo.both_failing) as [[c w'] t].
  split; [exact Hd|].
  pose proof (proj1 disabled_is_final w'
                [QaseReporter.CallAddTestResult Demo.T1;
                 QaseReporter.CallStartTestRun;
                 QaseReporter.CallAddTestResult Demo.T2;
                 QaseReporter.CallSendResults;
                 QaseReporter.CallPublish] Hd) as Hr.
  destruct (QaseReporter.run _ w') as [w2 t2].
  destruct Hr as (_ & _ & Hn & _).
  exact Hn.
Defined.

Lemma constructor_upstream_error_witness :
  QaseReporter.createReporter (Demo.scripted_new []) (Demo.scripted_new [])
    (or_off (Some "testops"))
    (Demo.options_for (Some "testops") (Some "report") None) = inl Error /\
  match QaseReporter.constructor (Demo.scripted_new []) (Demo.scripted_new [])
          Demo.env_over_options
          (Demo.options_for (Some "testops") (Some "report") None)
          Demo.no_env None with
  | (q, _, s', _) =>
      disabled q = true /\ useFallback q = false /\
      fallbackReporter q = None /\ s' = None
  end.
Proof.
  split; [reflexivity|].
  pose proof (constructor_upstream_error
                (Demo.scripted_new []) (Demo.scripted_new [])
                Demo.env_over_options
                (Demo.options_for (Some "testops") (Some "report") None)
                Demo.no_env None eq_refl) as Hc.
  destruct (QaseReporter.constructor _ _ _ _ _ _) as [[[q e] s'] t].
  destruct Hc as (_ & Hfb & Hd & Hyes & _).
  assert (Hcfg :
    fallback (Demo.env_over_options
                (Demo.options_for (Some "testops") (Some "report") None)
                (QaseReporter.env_from_state None Demo.no_env)) <> None)
    by (intros E; discriminate E).
  destruct (Hyes Hcfg) as [Hu Hs].
  repeat split; assumption.
Defined.

Lemma getInstance_memoizes_witness :
  QaseReporter.instance Demo.fresh_process = None /\
  match QaseReporter.getInstance (Demo.scripted_new []) (Demo.scripted_new [])
          Demo.env_over_options
          (Demo.options_for (Some "testops") (Some "report") (Some "token"))
          Demo.fresh_process with
  | (ref, p1, _) =>
      ref = 0 /\
      Forall (eq ref)
        (fst (QaseReporter.act (Demo.scripted_new []) (Demo.scripted_new [])
                Demo.env_over_options
                [QaseReporter.GetInstance
                   (Demo.options_for (Some "report") None None);
                 QaseReporter.Invoke (QaseReporter.CallAddTestResult Demo.T1);
                 QaseReporter.GetInstance
                   (Demo.options_for (Some "off") None None)]
                p1))
  end.
Proof.
  split; [reflexivity|].
  pose proof (getInstance_memoizes
                (Demo.scripted_new []) (Demo.scripted_new [])
                Demo.env_over_options
                (Demo.options_for (Some "testops") (Some "report")
                   (Some "token"))
                Demo.fresh_process
                [QaseReporter.GetInstance
                   (Demo.options_for (Some "report") None None);
                 QaseReporter.Invoke (QaseReporter.CallAddTestResult Demo.T1);
                 QaseReporter.GetInstance
                   (Demo.options_for (Some "off") None None)]
                eq_refl) as Hg.
  destruct (QaseReporter.getInstance _ _ _ _ _) as [[ref p1] t].
  destruct Hg as (Href & _ & Hact).
  split; [exact Href|].
  destruct (QaseReporter.act _ _ _ _ p1) as [refs p2].
  destruct Hact as (Hf & _). exact Hf.
Defined.

(** ** Further properties of the facade *)

Section FacadeLaws.

Context {R : Type} `{Reporter.InternalReporterInterface R}.

Lemma no_migration_app (t1 t2 : list Event) :
  no_migration (t1 ++ t2) = no_migration t1 && no_migration t2.
Proof. apply forallb_app. Qed.

Lemma invoke_captureLogs (c : QaseReporter.Call) (w : World R) :
  captureLogs (self (fst (QaseReporter.invoke c w))) = captureLogs (self w).
Proof.
  open_world w; destruct c; facade_cases; reflexivity.
Qed.

Lemma invoke_no_migration (c : QaseReporter.Call) (w : World R) :
  useFallback (self w) = true ->
  is_facade_setTestResults c = false ->
  no_migration (snd (QaseReporter.invoke c w)) = true.
Proof.
  open_world w; simpl; intros -> Hc.
  destruct c; try discriminate Hc; facade_cases; reflexivity.
Qed.

(** X1. [useFallback] is monotone: once true, it is true after any
    sequence of calls. *)
Theorem useFallback_never_reset (cs : list QaseReporter.Call) (w : World R) :
  useFallback (self w) = true ->
  useFallback (self (fst (QaseReporter.run cs w))) = true.
Proof.
  revert w; induction cs as [|c cs IH]; intros w Hu; simpl.
  - exact Hu.
  - pose proof (invoke_useFallback c w Hu) as Hu1.
    destruct (QaseReporter.invoke c w) as [w1 t1]; simpl in Hu1.
    specialize (IH w1 Hu1).
    destruct (QaseReporter.run cs w1) as [w2 t2]; simpl in *.
    exact IH.
Qed.

(** X2. No method reassigns the configuration or the capture-logs flag:
    after any sequence of calls [options] and [isCaptureLogs()] are what
    they were. *)
Theorem configuration_is_immutable (cs : list QaseReporter.Call)
    (w : World R) :
  options (self (fst (QaseReporter.run cs w))) = options (self w) /\
  QaseReporter.isCaptureLogs (self (fst (QaseReporter.run cs w))) =
    QaseReporter.isCaptureLogs (self w).
Proof.
  revert w; induction cs as [|c cs IH]; intros w; simpl.
  - split; reflexivity.
  - pose proof (invoke_options c w) as Ho.
    pose proof (invoke_captureLogs c w) as Hc.
    destruct (QaseReporter.invoke c w) as [w1 t1]; simpl in Ho, Hc.
    specialize (IH w1).
    destruct (QaseReporter.run cs w1) as [w2 t2]; simpl in *.
    destruct IH as [IH1 IH2]. split; [congruence|].
    rewrite IH2. unfold QaseReporter.isCaptureLogs. rewrite Hc. reflexivity.
Qed.

(** X3. Backend failures never reach the caller.  [sendResults],
    [complete], [startTestRun], [setTestResults] and [getResults] always
    return normally; [addTestResult] and [publish] throw exactly when the
    facade is enabled and the awaited start-of-run operation rejects. *)
Theorem backend_failures_never_escape (w : World R) (r : TestResultType)
    (l : list TestResultType) :
  fst (fst (QaseReporter.sendResults w)) = Normal tt /\
  fst (fst (QaseReporter.complete w)) = Normal tt /\
  fst (fst (QaseReporter.startTestRun w)) = Normal tt /\
  fst (fst (QaseReporter.setTestResults l w)) = Normal tt /\
  (exists x, fst (fst (QaseReporter.getResults w)) = Normal x) /\
  fst (fst (QaseReporter.addTestResult r w)) =
    (if negb (disabled (self w)) && rejects (startTestRunOperation (self w))
     then Throw Error else Normal tt) /\
  fst (fst (QaseReporter.publish w)) =
    (if negb (disabled (self w)) && rejects (startTestRunOperation (self w))
     then Throw Error else Normal tt).
Proof.
  open_world w.
  repeat split; try (facade_cases; reflexivity).
  facade_cases; eexists; reflexivity.
Qed.

(** X4. [startTestRunAsync()] does what [startTestRun()] does, then awaits
    the recorded start-of-run operation; it throws exactly when that
    operation rejects, also on a disabled facade. *)
Theorem startTestRunAsync_awaits (w : World R) :
  match QaseReporter.startTestRun w, QaseReporter.startTestRunAsync w with
  | (_, w1, t1), (c, w2, t2) =>
      w2 = w1 /\
      t2 = t1 ++ [EvAwait (startTestRunOperation (self w1))] /\
      c = (if rejects (startTestRunOperation (self w1))
           then Throw Error else Normal tt)
  end.
Proof.
  open_world w.
  facade_cases; repeat split.
Qed.

(** X5. [setTestResults(l)] followed by [getResults()]: the answer is [l]
    when the facade is enabled and the authoritative reporter exists, and
    the empty list otherwise. *)
Theorem setTestResults_getResults (l : list TestResultType) (w : World R) :
  QaseReporter.results_of
    (fst (QaseReporter.invoke (QaseReporter.CallSetTestResults l) w)) =
  if disabled (self w) then []
  else
    match QaseReporter.reporter
            (if useFallback (self w) then Fallback else Upstream) (self w) with
    | Some _ => l
    | None => []
    end.
Proof.
  open_world w.
  facade_cases; try reflexivity;
    apply Reporter.getTestResults_setTestResults.
Qed.

(** X6. On a facade that has flipped to the fallback, no method other than
    the facade's own [setTestResults] overwrites the fallback's buffer:
    the migration from the upstream happens at most once. *)
Theorem no_second_migration (cs : list QaseReporter.Call) (w : World R) :
  useFallback (self w) = true ->
  forallb (fun c => negb (is_facade_setTestResults c)) cs = true ->
  no_migration (snd (QaseReporter.run cs w)) = true.
Proof.
  revert w; induction cs as [|c cs IH]; intros w Hu Hcs; simpl.
  - reflexivity.
  - simpl in Hcs. apply andb_prop in Hcs. destruct Hcs as [Hc Hcs].
    apply negb_true_iff in Hc.
    pose proof (invoke_no_migration c w Hu Hc) as Ht.
    pose proof (invoke_useFallback c w Hu) as Hu1.
    destruct (QaseReporter.invoke c w) as [w1 t1]; simpl in Ht, Hu1.
    specialize (IH w1 Hu1 Hcs).
    destruct (QaseReporter.run cs w1) as [w2 t2]; simpl in *.
    rewrite no_migration_app, Ht, IH. reflexivity.
Qed.

End FacadeLaws.

Section FacadeFailover.

Context {R : Type} `{Reporter.InternalReporterInterface R}.

(** X7. [startTestRun()] when the upstream throws and the fallback hands
    out an operation: the facade stays enabled, records the fallback's
    operation and persists the fallback mode, but leaves [useFallback] as
    it was. *)
Theorem startTestRun_falls_back (w : World R) (u u' f f' : R)
    (p : Promise) :
  disabled (self w) = false ->
  upstreamReporter (self w) = Some u ->
  Reporter.startTestRun u = (u', StartThrows) ->
  fallbackReporter (self w) = Some f ->
  Reporter.startTestRun f = (f', StartReturns p) ->
  match QaseReporter.startTestRun w with
  | (c, w', t) =>
      c = Normal tt /\
      t = [EvLogDebug "Starting test run";
           EvCall Upstream OpStartTestRun false;
           EvLogError "Unable to start test run in the upstream reporter: ";
           EvCall Fallback OpStartTestRun true;
           EvSetMode (fallback (options (self w)))] /\
      disabled (self w') = false /\
      useFallback (self w') = useFallback (self w) /\
      startTestRunOperation (self w') = Some p /\
      upstreamReporter (self w') = Some u' /\
      fallbackReporter (self w') = Some f' /\
      store w' = StateManager.setMode (fallback (options (self w))) (store w)
  end.
Proof.
  open_world w; simpl; intros -> -> Hu -> Hf.
  facade_unfold. rewrite Hu. facade_unfold. rewrite Hf. facade_unfold.
  repeat split.
Qed.

(** X8. [publish()] on an enabled facade that has not flipped, when the
    upstream's [publish] fails and a fallback exists: the upstream's
    buffer is copied into the fallback, the fallback's [publish] is called
    on it, [useFallback] is set, the facade is disabled exactly when the
    fallback fails too, and in both cases the run state is cleared (so a
    [Mode = off] written on the way does not survive the call). *)
Theorem publish_fails_over (w : World R) (u u' f : R) :
  disabled (self w) = false ->
  useFallback (self w) = false ->
  startTestRunOperation (self w) <> Some Rejects ->
  upstreamReporter (self w) = Some u ->
  Reporter.publish u = (u', false) ->
  fallbackReporter (self w) = Some f ->
  let f1 := Reporter.setTestResults (Reporter.getTestResults u') f in
  let f2 := fst (Reporter.publish f1) in
  let ok := snd (Reporter.publish f1) in
  match QaseReporter.publish w with
  | (c, w', t) =>
      c = Normal tt /\
      Reporter.getTestResults f1 = Reporter.getTestResults u' /\
      upstreamReporter (self w') = Some u' /\
      fallbackReporter (self w') = Some f2 /\
      useFallback (self w') = true /\
      disabled (self w') = negb ok /\
      store w' = None /\
      count_secondary FwdPublish t = 1 /\
      last t (EvAwait None) = EvClearState
  end.
Proof.
  open_world w; simpl; intros -> -> Hp -> Hu ->.
  facade_unfold. rewrite Hu. facade_unfold.
  destruct (Reporter.publish
              (Reporter.setTestResults (Reporter.getTestResults u') f))
    as [f2 ok].
  destruct p as [[|]|]; try (exfalso; apply Hp; reflexivity);
    destruct ok; facade_unfold; repeat split;
    apply Reporter.getTestResults_setTestResults.
Qed.

(** X9. [addTestResult(result)] when the upstream fails and either no
    fallback exists or the fallback fails too: the facade is disabled and
    the last action is the store write of [Mode = off]. *)
Theorem addTestResult_failures_disable (r : TestResultType) (w : World R)
    (u u' : R) :
  disabled (self w) = false ->
  useFallback (self w) = false ->
  startTestRunOperation (self w) <> Some Rejects ->
  upstreamReporter (self w) = Some u ->
  Reporter.addTestResult r u = (u', false) ->
  match fallbackReporter (self w) with
  | None => True
  | Some f =>
      snd (Reporter.addTestResult r
             (Reporter.setTestResults (Reporter.getTestResults u') f))
      = false
  end ->
  match QaseReporter.addTestResult r w with
  | (c, w', t) =>
      c = Normal tt /\
      disabled (self w') = true /\
      store w' = StateManager.setMode (Some ModeEnum_off) (store w) /\
      last t EvClearState = EvSetMode (Some ModeEnum_off)
  end.
Proof.
  open_world w; simpl; intros -> -> Hp -> Hu Hf.
  facade_unfold. rewrite Hu. facade_unfold.
  destruct fb as [f|]; facade_unfold.
  - facade_unfold_in Hf.
    destruct (Reporter.addTestResult r
                (Reporter.setTestResults (Reporter.getTestResults u') f))
      as [f2 ok]; simpl in Hf; subst ok.
    destruct p as [[|]|]; try (exfalso; apply Hp; reflexivity);
      destruct st; repeat split.
  - destruct p as [[|]|]; try (exfalso; apply Hp; reflexivity);
      destruct st; repeat split.
Qed.

(** X10. [sendResults()] always addresses the upstream, also after the
    facade has flipped: when the upstream accepts, that call is the only
    action, the fallback is not asked to send and the store is not
    written. *)
Theorem sendResults_prefers_upstream (w : World R) (u u' : R) :
  disabled (self w) = false ->
  upstreamReporter (self w) = Some u ->
  Reporter.sendResults u = (u', true) ->
  QaseReporter.sendResults w =
    (Normal tt,
     {| self := QaseReporter.set_upstreamReporter (Some u') (self w);
        store := store w |},
     [EvCall Upstream OpSendResults true]).
Proof.
  open_world w; simpl; intros -> -> Hu.
  facade_unfold. rewrite Hu. reflexivity.
Qed.

(** X11. In every [complete()] call on an enabled facade the first
    backend call is the upstream's [complete] (no backend is called at all
    when the upstream reference is absent); the fallback is reached only
    after that attempt failed, and each backend's [complete] is called at
    most once.  On a disabled facade [complete()] reaches no backend. *)
Theorem complete_order (w : World R) :
  match QaseReporter.complete w with
  | (_, _, t) =>
      fallback_after_failed is_complete false t = true /\
      count_upstream is_complete t <= 1 /\
      count_fallback is_complete t <= 1 /\
      (disabled (self w) = true -> no_backend_call t = true) /\
      (disabled (self w) = false ->
       match upstreamReporter (self w) with
       | Some u =>
           first_backend_call t =
             Some (EvCall Upstream OpComplete (snd (Reporter.complete u)))
       | None => no_backend_call t = true
       end)
  end.
Proof.
  open_world w.
  destruct d, up as [u|]; facade_cases; repeat split; simpl; try lia;
    intros E; solve [reflexivity | discriminate E].
Qed.

(** X12. One [addTestResult(result)] call hands the result to each backend
    at most once, and to at most one of them successfully: after a
    successful delivery nothing else is delivered. *)
Theorem addTestResult_delivers_once (r : TestResultType) (w : World R) :
  match QaseReporter.addTestResult r w with
  | (_, _, t) =>
      count_upstream is_addTestResult t <= 1 /\
      count_fallback is_addTestResult t <= 1 /\
      length
        (filter
           (fun e =>
              match e with
              | EvCall _ (OpAddTestResult _) true => true
              | _ => false
              end) t) <= 1 /\
      (useFallback (self w) = false ->
       fallback_after_failed is_addTestResult false t = true)
  end.
Proof.
  open_world w.
  facade_cases; repeat split; simpl; try lia; intros E;
    solve [reflexivity | discriminate E].
Qed.

End FacadeFailover.

(** ** Further properties of the construction *)

Section ConstructionLaws.

Context {R : Type} `{Reporter.InternalReporterInterface R}.
Variable newTestOpsReporter : OptionsType -> option R.
Variable newReportReporter : OptionsType -> option R.
Variable composeOptions : OptionsType -> ProcessEnv -> OptionsType.

(** X13. [createReporter] throws the disabled signal exactly for the mode
    [off]; every other failure is an ordinary error. *)
Theorem createReporter_disabled_iff_off (m : ModeEnum) (o : OptionsType) :
  QaseReporter.createReporter newTestOpsReporter newReportReporter m o
    = inl DisabledException <->
  m = ModeEnum_off.
Proof.
  unfold QaseReporter.createReporter.
  destruct (String.eqb_spec m ModeEnum_testops) as [->|Ht].
  - simpl. split; [|intros E; discriminate E].
    destruct (QaseReporter.is_falsy_string (testops_api_token o));
      [intros E; discriminate E|].
    destruct (QaseReporter.is_falsy_string (testops_project o));
      [intros E; discriminate E|].
    destruct (newTestOpsReporter o); intros E; discriminate E.
  - destruct (String.eqb_spec m ModeEnum_report) as [->|Hr].
    + split; [|intros E; discriminate E].
      destruct (newReportReporter o); intros E; discriminate E.
    + destruct (String.eqb_spec m ModeEnum_off) as [->|Ho].
      * split; reflexivity.
      * split; [intros E; discriminate E|intros E; contradiction].
Qed.

(** X14. [createReporter] hands out a reporter only for the mode
    [testops] with a non-empty token and project, or for the mode
    [report], and only when the backend's constructor succeeds. *)
Theorem createReporter_builds_only (m : ModeEnum) (o : OptionsType) (r : R) :
  QaseReporter.createReporter newTestOpsReporter newReportReporter m o
    = inr r ->
  (m = ModeEnum_testops /\
   truthy_string (testops_api_token o) = true /\
   truthy_string (testops_project o) = true /\
   newTestOpsReporter o = Some r) \/
  (m = ModeEnum_report /\ newReportReporter o = Some r).
Proof.
  unfold QaseReporter.createReporter, QaseReporter.is_falsy_string.
  destruct (String.eqb_spec m ModeEnum_testops) as [->|Ht].
  - destruct (truthy_string (testops_api_token o)); simpl;
      [|intros E; discriminate E].
    destruct (truthy_string (testops_project o)); simpl;
      [|intros E; discriminate E].
    destruct (newTestOpsReporter o) as [r'|]; intros E;
      [|discriminate E].
    injection E as ->. left. repeat split.
  - destruct (String.eqb_spec m ModeEnum_report) as [->|Hr].
    + destruct (newReportReporter o) as [r'|]; intros E; [|discriminate E].
      injection E as ->. right. split; reflexivity.
    + destruct (String.eqb m ModeEnum_off); intros E; discriminate E.
Qed.

(** X15. The constructor never overwrites a run state that already
    exists: the store is left as it was and nothing is written. *)
Theorem constructor_keeps_existing_state (opts : OptionsType)
    (env : ProcessEnv) (s : StateManager.Store) :
  StateManager.isStateExists s = true ->
  match QaseReporter.constructor newTestOpsReporter newReportReporter
          composeOptions opts env s with
  | (_, _, s', t) => s' = s /\ no_store_write t = true
  end.
Proof.
  destruct s as [st|]; [intros _|intros E; discriminate E].
  facade_unfold.
  destruct (composeOptions opts
              (QaseReporter.env_from_state (Some st) env))
    as [m fbm cl dbg tok prj].
  destruct fbm; facade_cases; split; reflexivity.
Qed.

(** X16. With no run state on disk the constructor writes one, unless the
    upstream construction failed with an ordinary error while a fallback
    mode is configured (then it returns before the write).  The record has
    no [RunId] and no [IsModeChanged]; its [Mode] is [off] for a disabled
    facade and the configured mode otherwise. *)
Theorem constructor_writes_initial_state (opts : OptionsType)
    (env : ProcessEnv) :
  let co := composeOptions opts (QaseReporter.env_from_state None env) in
  match QaseReporter.constructor newTestOpsReporter newReportReporter
          composeOptions opts env None with
  | (q, _, s', _) =>
      match QaseReporter.createReporter newTestOpsReporter newReportReporter
              (or_off (mode co)) co, fallback co with
      | inl Error, Some _ => s' = None
      | _, _ =>
          s' = Some {| RunId := None;
                       Mode := if disabled q then Some ModeEnum_off
                               else mode co;
                       IsModeChanged := None |}
      end
  end.
Proof.
  intros co; subst co. facade_unfold.
  destruct (composeOptions opts (QaseReporter.env_from_state None env))
    as [m fbm cl dbg tok prj].
  cbn [mode fallback].
  destruct fbm as [fm|].
  - facade_cases; reflexivity.
  - rewrite (createReporter_off newTestOpsReporter newReportReporter).
    facade_cases; reflexivity.
Qed.

(** X17. When the resolved mode is [off] (or absent, or empty) the facade
    is disabled from construction on, without upstream reporter and
    without [useFallback]; the fallback reporter is constructed
    nevertheless when its construction succeeds. *)
Theorem constructor_mode_off (opts : OptionsType) (env : ProcessEnv)
    (s : StateManager.Store) :
  let co := composeOptions opts (QaseReporter.env_from_state s env) in
  or_off (mode co) = ModeEnum_off ->
  match QaseReporter.constructor newTestOpsReporter newReportReporter
          composeOptions opts env s with
  | (q, _, _, _) =>
      disabled q = true /\
      upstreamReporter q = None /\
      useFallback q = false /\
      fallbackReporter q =
        match QaseReporter.createReporter newTestOpsReporter
                newReportReporter (or_off (fallback co)) co with
        | inr r => Some r
        | inl _ => None
        end
  end.
Proof.
  intros co Hoff; subst co. facade_unfold.
  destruct (composeOptions opts (QaseReporter.env_from_state s env))
    as [m fbm cl dbg tok prj].
  cbn [mode fallback] in *. rewrite Hoff.
  change (QaseReporter.createReporter newTestOpsReporter newReportReporter
            ModeEnum_off)
    with (QaseReporter.createReporter newTestOpsReporter newReportReporter
            (or_off None)).
  rewrite (createReporter_off newTestOpsReporter newReportReporter).
  destruct s; facade_cases; repeat split.
Qed.

End ConstructionLaws.

(** ** The request headers *)

Lemma append_not_empty_r (a b : string) :
  b <> EmptyString -> (a ++ b)%string <> EmptyString.
Proof.
  intros Hb E. destruct a as [|c a]; simpl in E.
  - exact (Hb E).
  - discriminate E.
Qed.

Lemma concat_empty_iff (sep : string) (l : list string) :
  Forall (fun x => x <> EmptyString) l ->
  String.concat sep l = EmptyString <-> l = [].
Proof.
  intros Hl. destruct l as [|x xs]; [split; reflexivity|].
  inversion Hl as [|? ? Hx _]; subst.
  split; [|intros E; discriminate E].
  intros E. exfalso. destruct xs as [|y ys]; simpl in E.
  - exact (Hx E).
  - destruct x as [|c x]; [apply Hx; reflexivity|discriminate E].
Qed.

Lemma push_version_nil (v : option string) (entry : string -> string)
    (client : list string) :
  QaseReporter.push_version v entry client = [] <->
  client = [] /\ truthy_string v = false.
Proof.
  unfold QaseReporter.push_version, truthy_string.
  destruct v as [s|]; [|split; [intros ->; split; reflexivity|tauto]].
  destruct (String.eqb s EmptyString); simpl.
  - split; [intros ->; split; reflexivity|tauto].
  - split.
    + intros E. destruct client; discriminate E.
    + intros [_ E]; discriminate E.
Qed.

Lemma push_version_not_empty (v : option string) (entry : string -> string)
    (client : list string) :
  (forall s, entry s <> EmptyString) ->
  Forall (fun x => x <> EmptyString) client ->
  Forall (fun x => x <> EmptyString)
    (QaseReporter.push_version v entry client).
Proof.
  intros He Hc. unfold QaseReporter.push_version.
  destruct v as [s|]; [|exact Hc].
  destruct (String.eqb s EmptyString); [exact Hc|].
  apply Forall_app. split; [exact Hc|].
  constructor; [apply He|constructor].
Qed.

(** X18. The [X-Client] header is empty exactly when none of the four
    package versions is available. *)
Theorem X_Client_empty_iff (proc : QaseReporter.ProcessInfo) (npm_v : string)
    (getPackageVersion : string -> option string)
    (frameworkPackage frameworkName reporterName : string) :
  QaseReporter.X_Client
    (QaseReporter.createHeaders proc npm_v getPackageVersion
       frameworkPackage frameworkName reporterName) = EmptyString <->
  truthy_string (getPackageVersion frameworkPackage) = false /\
  truthy_string (getPackageVersion reporterName) = false /\
  truthy_string (getPackageVersion "qase-javascript-commons") = false /\
  truthy_string (getPackageVersion "qaseio") = false.
Proof.
  unfold QaseReporter.createHeaders; cbv zeta; cbn [QaseReporter.X_Client].
  rewrite concat_empty_iff.
  - rewrite !push_version_nil. tauto.
  - repeat apply push_version_not_empty; try constructor;
      intros s; try (intros E; discriminate E).
    apply append_not_empty_r. intros E; discriminate E.
Qed.

Lemma remove_quotes_newlines_clean (s : string) (c : ascii) :
  In c (list_ascii_of_string (QaseReporter.remove_quotes_newlines s)) ->
  QaseReporter.is_quote_or_newline c = false.
Proof.
  induction s as [|a s IH]; simpl.
  - intros [].
  - destruct (QaseReporter.is_quote_or_newline a) eqn:Ea; simpl.
    + exact IH.
    + intros [<-|Hin]; [exact Ea|exact (IH Hin)].
Qed.

(** X19. The output of [npm -v] is sanitized: what is kept contains no
    quote and no line feed, a second pass changes nothing, and an output
    without such characters is kept as it is. *)
Theorem npm_version_is_sanitized (s : string) :
  (forall c : ascii,
      In c (list_ascii_of_string (QaseReporter.remove_quotes_newlines s)) ->
      QaseReporter.is_quote_or_newline c = false) /\
  QaseReporter.remove_quotes_newlines
    (QaseReporter.remove_quotes_newlines s) =
    QaseReporter.remove_quotes_newlines s /\
  (forallb (fun c => negb (QaseReporter.is_quote_or_newline c))
     (list_ascii_of_string s) = true ->
   QaseReporter.remove_quotes_newlines s = s).
Proof.
  split; [intros c; apply remove_quotes_newlines_clean|]. split.
  - induction s as [|a s IH]; simpl; [reflexivity|].
    destruct (QaseReporter.is_quote_or_newline a) eqn:Ea; simpl.
    + exact IH.
    + rewrite Ea, IH. reflexivity.
  - induction s as [|a s IH]; simpl; [reflexivity|].
    destruct (QaseReporter.is_quote_or_newline a); simpl.
    + intros E; discriminate E.
    + intros E. rewrite (IH E). reflexivity.
Qed.

(** ** The Playwright helpers *)

Section PlaywrightLaws.

Variable basename : string -> string.
Variable getMimeTypes : string -> string.
Variable uuidv4 : nat -> string.

Lemma attach_files_length (files : list string) (n : nat) :
  length (Playwright.attach_files basename getMimeTypes uuidv4 files n) =
    length files.
Proof.
  revert n; induction files as [|f files IH]; intros n; simpl.
  - reflexivity.
  - rewrite IH. reflexivity.
Qed.

Lemma attach_files_nth (files : list string) :
  forall (n i : nat) (file : string),
    nth_error files i = Some file ->
    nth_error (Playwright.attach_files basename getMimeTypes uuidv4 files n)
      i =
    Some (Playwright.addAttachment uuidv4 (basename file)
            (getMimeTypes file) (Some file) None (n + i)).
Proof.
  induction files as [|f files IH]; intros n i file Hi.
  - destruct i; discriminate Hi.
  - destruct i as [|i]; simpl in *.
    + injection Hi as ->. rewrite Nat.add_0_r. reflexivity.
    + rewrite (IH (S n) i file Hi).
      replace (S n + i) with (n + S i) by lia. reflexivity.
Qed.

(** X20. [qase.attach] with [paths] runs one step per path, in order; the
    step of a path is named after its base name and a fresh identifier and
    attaches the file with the content type of its name, unless the path
    is the empty string, in which case the step attaches nothing.  The
    [name], [content] and [contentType] of the argument play no part. *)
Theorem attach_paths (a : Playwright.AttachOptions) (ps : Playwright.Paths)
    (n : nat) :
  Playwright.paths a = Some ps ->
  let files :=
    match ps with
    | Playwright.OnePath p => [p]
    | Playwright.ManyPaths l => l
    end in
  match Playwright.attach basename getMimeTypes uuidv4 a n with
  | (steps, n') =>
      length steps = length files /\
      n' = n + length files /\
      forall (i : nat) (file : string),
        nth_error files i = Some file ->
        let stepName :=
          ("step_attach_" ++ uuidv4 (n + i) ++ "_" ++ basename file)%string in
        nth_error steps i =
          Some {| Playwright.stepName := stepName;
                  Playwright.attached :=
                    if String.eqb file EmptyString then None
                    else
                      Some {| Playwright.attached_name := stepName;
                              Playwright.attached_contentType :=
                                getMimeTypes file;
                              Playwright.attached_source :=
                                Playwright.FromPath file |} |}
  end.
Proof.
  intros Hp files. unfold Playwright.attach. rewrite Hp. fold files.
  split; [apply attach_files_length|]. split; [reflexivity|].
  intros i file Hi. cbv zeta.
  rewrite (attach_files_nth files n i file Hi).
  unfold Playwright.addAttachment; simpl.
  destruct (String.eqb file EmptyString); reflexivity.
Qed.

(** X21. [qase.attach] without [paths] runs exactly one step, named after
    [name] (default [attachment]); the step attaches the content, under
    [contentType] (default [application/octet-stream]), exactly when the
    content is truthy: an absent or empty string content attaches nothing,
    a buffer always attaches. *)
Theorem attach_content (a : Playwright.AttachOptions) (n : nat) :
  Playwright.paths a = None ->
  exists step : Playwright.Step,
    Playwright.attach basename getMimeTypes uuidv4 a n = ([step], S n) /\
    Playwright.stepName step =
      ("step_attach_" ++ uuidv4 n ++ "_"
       ++ match Playwright.name a with
          | Some s => s
          | None => "attachment"
          end)%string /\
    Playwright.attached step =
      match Playwright.content a with
      | Some b =>
          if Playwright.truthy_body (Some b) then
            Some {| Playwright.attached_name := Playwright.stepName step;
                    Playwright.attached_contentType :=
                      match Playwright.contentType a with
                      | Some s => s
                      | None => Playwright.defaultContentType
                      end;
                    Playwright.attached_source := Playwright.FromBody b |}
          else None
      | None => None
      end /\
    (forall bytes : list Byte.byte,
        Playwright.content a = Some (Playwright.BodyBuffer bytes) ->
        Playwright.attached step <> None) /\
    (Playwright.content a = Some (Playwright.BodyString EmptyString) ->
     Playwright.attached step = None).
Proof.
  intros Hp. unfold Playwright.attach. rewrite Hp.
  eexists; split; [reflexivity|].
  split; [reflexivity|]. simpl.
  split; [destruct (Playwright.content a) as [[s|b]|]; reflexivity|].
  split.
  - intros bytes ->. intros E; discriminate E.
  - intros ->. reflexivity.
Qed.

End PlaywrightLaws.

Section QaseIds.

Variable Number : Type.
Variable parseInt : string -> Number.
Variable isNaN : Number -> bool.

Lemma collect_ids_spec (cs : list (Playwright.CaseId Number)) :
  Playwright.collect_ids parseInt isNaN cs =
    (flat_map
       (fun c =>
          match c with
          | Playwright.IdNumber n => [n]
          | Playwright.IdString _ s =>
              if isNaN (parseInt s) then [] else [parseInt s]
          end) cs,
     flat_map
       (fun c =>
          match c with
          | Playwright.IdNumber _ => []
          | Playwright.IdString _ s =>
              if isNaN (parseInt s) then [Playwright.LogShouldBeNumber s]
              else []
          end) cs).
Proof.
  induction cs as [|c cs IH]; simpl; [reflexivity|].
  rewrite IH. destruct c as [n|s]; [reflexivity|].
  destruct (isNaN (parseInt s)); reflexivity.
Qed.

(** X22. The deprecated [qase(caseId, name)] returns [name] unchanged and
    registers, in order, every number it was given as it is (no check) and
    the parsed value of every string that parses; each string that does
    not parse is dropped with one console line, after the deprecation
    line.  Every input is thus either registered or reported. *)
Theorem qase_registers_ids (caseId : Playwright.CaseIds Number)
    (name : string) :
  let inputs :=
    match caseId with
    | Playwright.Single c => [c]
    | Playwright.Several cs => cs
    end in
  let q := Playwright.qase parseInt isNaN caseId name in
  Playwright.returned q = name /\
  snd (Playwright.addIds q) = name /\
  fst (Playwright.addIds q) =
    flat_map
      (fun c =>
         match c with
         | Playwright.IdNumber n => [n]
         | Playwright.IdString _ s =>
             if isNaN (parseInt s) then [] else [parseInt s]
         end) inputs /\
  Playwright.console q =
    Playwright.LogDeprecated
      :: flat_map
           (fun c =>
              match c with
              | Playwright.IdNumber _ => []
              | Playwright.IdString _ s =>
                  if isNaN (parseInt s)
                  then [Playwright.LogShouldBeNumber s]
                  else []
              end) inputs /\
  length (fst (Playwright.addIds q)) + length (Playwright.console q) =
    S (length inputs).
Proof.
  intros inputs q. subst q. unfold Playwright.qase. fold inputs.
  rewrite collect_ids_spec. cbn [Playwright.returned Playwright.addIds
                                  Playwright.console fst snd].
  repeat split. simpl.
  induction inputs as [|c cs IH]; [reflexivity|].
  destruct c as [n|s]; simpl.
  - rewrite <- IH. lia.
  - destruct (isNaN (parseInt s)); simpl; rewrite <- IH; lia.
Qed.

End QaseIds.

Section FacadeMore.

Context {R : Type} `{Reporter.InternalReporterInterface R}.
Variable newTestOpsReporter : OptionsType -> option R.
Variable newReportReporter : OptionsType -> option R.
Variable composeOptions : OptionsType -> ProcessEnv -> OptionsType.

(** X23. After [addTestResult(result)] failed over to a fallback that
    accepted the result, [getResults()] answers the fallback's buffer, that
    is the buffer obtained by handing the result to a fallback holding the
    upstream's results. *)
Theorem getResults_after_failover (r : TestResultType) (w : World R)
    (u u' f : R) :
  disabled (self w) = false ->
  useFallback (self w) = false ->
  startTestRunOperation (self w) <> Some Rejects ->
  upstreamReporter (self w) = Some u ->
  Reporter.addTestResult r u = (u', false) ->
  fallbackReporter (self w) = Some f ->
  snd (Reporter.addTestResult r
         (Reporter.setTestResults (Reporter.getTestResults u') f)) = true ->
  QaseReporter.results_of
    (fst (QaseReporter.invoke (QaseReporter.CallAddTestResult r) w)) =
  Reporter.getTestResults
    (fst (Reporter.addTestResult r
            (Reporter.setTestResults (Reporter.getTestResults u') f))).
Proof.
  open_world w; simpl; intros -> -> Hp -> Hu -> Hok.
  facade_unfold. rewrite Hu. facade_unfold.
  destruct (Reporter.addTestResult r
              (Reporter.setTestResults (Reporter.getTestResults u') f))
    as [f2 ok]; simpl in Hok; subst ok.
  destruct p as [[|]|]; try (exfalso; apply Hp; reflexivity); reflexivity.
Qed.

(** X24. The constructor resolves the configuration against the
    environment as overridden by an existing run state: the mode of the
    environment becomes the persisted [Mode] when [IsModeChanged] is set
    and [Mode] is a non-empty string, its run id becomes the persisted
    [RunId] when that is a non-zero number, and otherwise both stay as they
    were. *)
Theorem constructor_resolves_against_state (opts : OptionsType)
    (env : ProcessEnv) (s : StateManager.Store) :
  match QaseReporter.constructor newTestOpsReporter newReportReporter
          composeOptions opts env s with
  | (q, env', _, _) =>
      options q = composeOptions opts env' /\
      env_mode env' =
        match s with
        | Some st =>
            match IsModeChanged st, Mode st with
            | Some true, Some m =>
                if String.eqb m EmptyString then env_mode env else Some m
            | _, _ => env_mode env
            end
        | None => env_mode env
        end /\
      env_run_id env' =
        match s with
        | Some st =>
            match RunId st with
            | Some z => if Z.eqb z 0 then env_run_id env else Some z
            | None => env_run_id env
            end
        | None => env_run_id env
        end
  end.
Proof.
  pose proof (constructor_options newTestOpsReporter newReportReporter
                composeOptions opts env s) as Hc.
  destruct (QaseReporter.constructor newTestOpsReporter newReportReporter
              composeOptions opts env s) as [[[q env'] s'] t].
  destruct Hc as [Ho He]. subst env'.
  split; [exact Ho|].
  destruct s as [[rid md imc]|]; [|split; reflexivity].
  unfold QaseReporter.env_from_state; simpl.
  destruct imc as [[|]|], md as [m|], rid as [z|]; simpl;
    try destruct (String.eqb m EmptyString); simpl;
    try destruct (Z.eqb z 0); simpl; split; reflexivity.
Qed.

(** X25. A disabled facade still deletes the run state: [publish()] and
    [complete()] do nothing but clear the store. *)
Theorem disabled_facade_still_clears_state (w : World R) :
  disabled (self w) = true ->
  QaseReporter.publish w =
    (Normal tt, {| self := self w; store := None |}, [EvClearState]) /\
  QaseReporter.complete w =
    (Normal tt, {| self := self w; store := None |}, [EvClearState]).
Proof.
  open_world w; simpl; intros ->. split; reflexivity.
Qed.

End FacadeMore.

(** ** The further properties on concrete runs *)

Lemma useFallback_never_reset_witness :
  useFallback (self Demo.flipped) = true /\
  useFallback
    (self (fst (QaseReporter.run
                  [QaseReporter.CallSendResults; QaseReporter.CallPublish;
                   QaseReporter.CallComplete] Demo.flipped))) = true.
Proof.
  split; [reflexivity|].
  exact (useFallback_never_reset
           [QaseReporter.CallSendResults; QaseReporter.CallPublish;
            QaseReporter.CallComplete] Demo.flipped eq_refl).
Defined.

Lemma no_second_migration_witness :
  useFallback (self Demo.flipped) = true /\
  no_migration
    (snd (QaseReporter.run
            [QaseReporter.CallAddTestResult Demo.T2;
             QaseReporter.CallSendResults; QaseReporter.CallPublish]
            Demo.flipped)) = true.
Proof.
  split; [reflexivity|].
  exact (no_second_migration
           [QaseReporter.CallAddTestResult Demo.T2;
            QaseReporter.CallSendResults; QaseReporter.CallPublish]
           Demo.flipped eq_refl eq_refl).
Defined.

Lemma startTestRun_falls_back_witness :
  disabled (self Demo.upstream_broken) = false /\
  match QaseReporter.startTestRun Demo.upstream_broken with
  | (_, w', _) =>
      disabled (self w') = false /\
      useFallback (self w') = false /\
      startTestRunOperation (self w') = Some Fulfils
  end.
Proof.
  split; [reflexivity|].
  pose proof (startTestRun_falls_back Demo.upstream_broken
                {| buffer := []; script := [Bad] |}
                {| buffer := []; script := [] |}
                {| buffer := []; script := [] |}
                {| buffer := []; script := [] |}
                Fulfils eq_refl eq_refl eq_refl eq_refl eq_refl) as Hs.
  destruct (QaseReporter.startTestRun Demo.upstream_broken) as [[c w'] t].
  destruct Hs as (_ & _ & Hd & Hu & Hp & _).
  repeat split; assumption.
Defined.

Lemma publish_fails_over_witness :
  disabled (self Demo.upstream_broken) = false /\
  match QaseReporter.publish Demo.upstream_broken with
  | (_, w', _) =>
      useFallback (self w') = true /\
      disabled (self w') = false /\
      store w' = None
  end.
Proof.
  split; [reflexivity|].
  pose proof (publish_fails_over Demo.upstream_broken
                {| buffer := []; script := [Bad] |}
                {| buffer := []; script := [] |}
                {| buffer := []; script := [] |}
                eq_refl eq_refl (fun E => ltac:(discriminate E))
                eq_refl eq_refl eq_refl) as Hs.
  cbv zeta in Hs.
  destruct (QaseReporter.publish Demo.upstream_broken) as [[c w'] t].
  destruct Hs as (_ & _ & _ & _ & Hu & Hd & Hst & _).
  repeat split; assumption.
Defined.

Lemma addTestResult_failures_disable_witness :
  disabled (self Demo.both_failing) = false /\
  match QaseReporter.addTestResult Demo.T1 Demo.both_failing with
  | (_, w', _) =>
      disabled (self w') = true /\
      store w' =
        Some {| RunId := None;
                Mode := Some ModeEnum_off;
                IsModeChanged := Some true |}
  end.
Proof.
  split; [reflexivity|].
  pose proof (addTestResult_failures_disable Demo.T1 Demo.both_failing
                {| buffer := []; script := [Bad] |}
                {| buffer := []; script := [] |}
                eq_refl eq_refl (fun E => ltac:(discriminate E))
                eq_refl eq_refl eq_refl) as Hs.
  destruct (QaseReporter.addTestResult Demo.T1 Demo.both_failing)
    as [[c w'] t].
  destruct Hs as (_ & Hd & Hst & _).
  split; [exact Hd|exact Hst].
Defined.

Lemma sendResults_prefers_upstream_witness :
  useFallback
    (self (Demo.after [QaseReporter.CallAddTestResult Demo.T1]
             Demo.upstream_broken)) = true /\
  snd (QaseReporter.sendResults
         (Demo.after [QaseReporter.CallAddTestResult Demo.T1]
            Demo.upstream_broken)) =
    [EvCall Upstream OpSendResults true].
Proof.
  split; [reflexivity|].
  pose proof (sendResults_prefers_upstream
                (Demo.after [QaseReporter.CallAddTestResult Demo.T1]
                   Demo.upstream_broken)
                {| buffer := []; script := [] |}
                {| buffer := []; script := [] |}
                eq_refl eq_refl eq_refl) as Hs.
  rewrite Hs. reflexivity.
Defined.

Lemma addTestResult_delivers_once_witness :
  useFallback (self Demo.both_failing) = false /\
  fallback_after_failed is_addTestResult false
    (snd (QaseReporter.addTestResult Demo.T1 Demo.both_failing)) = true.
Proof.
  split; [reflexivity|].
  pose proof (addTestResult_delivers_once Demo.T1 Demo.both_failing) as Hs.
  destruct (QaseReporter.addTestResult Demo.T1 Demo.both_failing)
    as [[c w'] t].
  destruct Hs as (_ & _ & _ & Ho).
  exact (Ho eq_refl).
Defined.

Lemma createReporter_disabled_iff_off_witness :
  QaseReporter.createReporter (Demo.scripted_new []) (Demo.scripted_new [])
    ModeEnum_off (Demo.options_for None None None) = inl DisabledException.
Proof.
  exact (proj2 (createReporter_disabled_iff_off
                  (Demo.scripted_new []) (Demo.scripted_new [])
                  ModeEnum_off (Demo.options_for None None None)) eq_refl).
Defined.

Lemma createReporter_builds_only_witness :
  QaseReporter.createReporter (Demo.scripted_new []) (Demo.scripted_new [])
    ModeEnum_testops
    (Demo.options_for (Some "testops") None (Some "token"))
    = inr {| buffer := []; script := [] |} /\
  truthy_string
    (testops_api_token
       (Demo.options_for (Some "testops") None (Some "token"))) = true.
Proof.
  split; [reflexivity|].
  destruct (createReporter_builds_only
              (Demo.scripted_new []) (Demo.scripted_new [])
              ModeEnum_testops
              (Demo.options_for (Some "testops") None (Some "token"))
              {| buffer := []; script := [] |} eq_refl)
    as [(_ & Ht & _)|(E & _)].
  - exact Ht.
  - discriminate E.
Defined.

Lemma constructor_keeps_existing_state_witness :
  match QaseReporter.constructor (Demo.scripted_new []) (Demo.scripted_new [])
          Demo.env_over_options
          (Demo.options_for (Some "testops") (Some "report") (Some "token"))
          Demo.no_env
          (Some {| RunId := Some 7%Z;
                   Mode := Some "report";
                   IsModeChanged := Some true |}) with
  | (_, _, s', _) =>
      s' = Some {| RunId := Some 7%Z;
                   Mode := Some "report";
                   IsModeChanged := Some true |}
  end.
Proof.
  pose proof (constructor_keeps_existing_state
                (Demo.scripted_new []) (Demo.scripted_new [])
                Demo.env_over_options
                (Demo.options_for (Some "testops") (Some "report")
                   (Some "token"))
                Demo.no_env
                (Some {| RunId := Some 7%Z;
                         Mode := Some "report";
                         IsModeChanged := Some true |}) eq_refl) as Hs.
  destruct (QaseReporter.constructor _ _ _ _ _ _) as [[[q e] s'] t].
  exact (proj1 Hs).
Defined.

Lemma constructor_mode_off_witness :
  match QaseReporter.constructor (Demo.scripted_new []) (Demo.scripted_new [])
          Demo.env_over_options
          (Demo.options_for None (Some "report") None)
          Demo.no_env None with
  | (q, _, _, _) =>
      disabled q = true /\
      fallbackReporter q = Some {| buffer := []; script := [] |}
  end.
Proof.
  pose proof (constructor_mode_off
                (Demo.scripted_new []) (Demo.scripted_new [])
                Demo.env_over_options
                (Demo.options_for None (Some "report") None)
                Demo.no_env None eq_refl) as Hs.
  destruct (QaseReporter.constructor _ _ _ _ _ _) as [[[q e] s'] t].
  destruct Hs as (Hd & _ & _ & Hf).
  split; [exact Hd|exact Hf].
Defined.

Lemma X_Client_empty_iff_witness :
  QaseReporter.X_Client
    (QaseReporter.createHeaders
       {| QaseReporter.node_version := "v18.0.0";
          QaseReporter.platform := "linux";
          QaseReporter.arch := "x64" |}
       "9.5.0" (fun _ => None) "@playwright/test" "playwright"
       "playwright-qase-reporter") = EmptyString.
Proof.
  apply (proj2 (X_Client_empty_iff
                  {| QaseReporter.node_version := "v18.0.0";
                     QaseReporter.platform := "linux";
                     QaseReporter.arch := "x64" |}
                  "9.5.0" (fun _ => None) "@playwright/test" "playwright"
                  "playwright-qase-reporter")).
  repeat split.
Defined.

Lemma npm_version_is_sanitized_witness :
  QaseReporter.remove_quotes_newlines "9.5.0" = "9.5.0".
Proof.
  exact (proj2 (proj2 (npm_version_is_sanitized "9.5.0")) eq_refl).
Defined.

Lemma attach_paths_witness :
  length
    (fst (Playwright.attach (fun p => p) (fun _ => "text/plain")
            (fun _ => "id")
            {| Playwright.name := Some "ignored";
               Playwright.paths :=
                 Some (Playwright.ManyPaths ["a.txt"; "b.txt"]);
               Playwright.content := None;
               Playwright.contentType := None |} 0)) = 2.
Proof.
  pose proof (attach_paths (fun p => p) (fun _ => "text/plain")
                (fun _ => "id")
                {| Playwright.name := Some "ignored";
                   Playwright.paths :=
                     Some (Playwright.ManyPaths ["a.txt"; "b.txt"]);
                   Playwright.content := None;
                   Playwright.contentType := None |}
                (Playwright.ManyPaths ["a.txt"; "b.txt"]) 0 eq_refl) as Hs.
  cbv zeta in Hs.
  destruct (Playwright.attach _ _ _ _ 0) as [steps n'].
  exact (proj1 Hs).
Defined.

Lemma attach_content_witness :
  exists step : Playwright.Step,
    fst (Playwright.attach (fun p => p) (fun _ => "text/plain")
           (fun _ => "id")
           {| Playwright.name := None;
              Playwright.paths := None;
              Playwright.content :=
                Some (Playwright.BodyString EmptyString);
              Playwright.contentType := None |} 0) = [step] /\
    Playwright.attached step = None.
Proof.
  destruct (attach_content (fun p => p) (fun _ => "text/plain")
              (fun _ => "id")
              {| Playwright.name := None;
                 Playwright.paths := None;
                 Playwright.content :=
                   Some (Playwright.BodyString EmptyString);
                 Playwright.contentType := None |} 0 eq_refl)
    as (step & Ha & _ & _ & _ & He).
  exists step. split.
  - rewrite Ha. reflexivity.
  - exact (He eq_refl).
Defined.

Lemma publish_clears_state_witness :
  fallbackReporter (self Demo.both_failing) <> None /\
  match QaseReporter.publish Demo.both_failing with
  | (c, w', _) => c = Normal tt /\ store w' = None
  end.
Proof.
  split; [intros E; discriminate E|].
  apply (publish_clears_state Demo.both_failing).
  right. split; intros E; discriminate E.
Defined.

Lemma constructor_without_upstream_is_disabled_witness :
  match QaseReporter.constructor (Demo.scripted_new []) (Demo.scripted_new [])
          Demo.env_over_options
          (Demo.options_for (Some "testops") None None)
          Demo.no_env None with
  | (q, _, _, _) => upstreamReporter q = None /\ disabled q = true
  end.
Proof.
  generalize (constructor_without_upstream_is_disabled
                (Demo.scripted_new []) (Demo.scripted_new [])
                Demo.env_over_options
                (Demo.options_for (Some "testops") None None)
                Demo.no_env None).
  cbv. intros Hs. split; [reflexivity|apply Hs; reflexivity].
Defined.

Lemma getResults_after_failover_witness :
  QaseReporter.results_of
    (fst (QaseReporter.invoke (QaseReporter.CallAddTestResult Demo.T1)
            Demo.upstream_broken)) = [Demo.T1].
Proof.
  pose proof (getResults_after_failover Demo.T1 Demo.upstream_broken
                {| buffer := []; script := [Bad] |}
                {| buffer := []; script := [] |}
                {| buffer := []; script := [] |}
                eq_refl eq_refl (fun E => ltac:(discriminate E))
                eq_refl eq_refl eq_refl eq_refl) as Hs.
  rewrite Hs. reflexivity.
Defined.

Lemma disabled_facade_still_clears_state_witness :
  match QaseReporter.startTestRun Demo.both_failing with
  | (_, w', _) =>
      StateManager.isStateExists (store w') = true /\
      snd (QaseReporter.publish w') = [EvClearState]
  end.
Proof.
  generalize (disabled_facade_still_clears_state
                (snd (fst (QaseReporter.startTestRun Demo.both_failing)))
                eq_refl).
  cbv. intros [_ _]. split; reflexivity.
Defined.

(** C6. A facade that has flipped to the fallback while staying enabled,
    whose fallback [publish] fails: [publishFallback] disables the facade,
    and the same [publish()] call then still calls the upstream's
    [publish] and, that failing, the fallback's [publish] a second
    time. *)
Example publish_reaches_backends_after_disabling :
  disabled (self Demo.flipped_fallback_failing) = false /\
  useFallback (self Demo.flipped_fallback_failing) = true /\
  match QaseReporter.publishFallback Demo.flipped_fallback_failing with
  | (_, wd, tf) =>
      disabled (self wd) = true /\
      tf = [EvCall Fallback OpPublish false;
            EvSetMode (Some ModeEnum_off);
            EvLogError
              "Unable to publish the run results to the fallback reporter:"]
      /\
      match QaseReporter.publish Demo.flipped_fallback_failing with
      | (c, w', t) =>
          c = Normal tt /\
          disabled (self w') = true /\
          t = [EvAwait None; EvLogDebug "Publishing test run results"]
              ++ tf
              ++ [EvCall Upstream OpPublish false;
                  EvLogError
                    ("Unable to publish the run results "
                     ++ "to the upstream reporter:")%string;
                  EvCall Fallback OpPublish true;
                  EvSetMode (Some "report");
                  EvClearState]
      end
  end.
Proof. vm_compute. repeat split. Qed.



Lemma complete_order_witness :
  disabled (self Demo.both_failing) = false /\
  first_backend_call (snd (QaseReporter.complete Demo.both_failing)) =
    Some (EvCall Upstream OpComplete false).
Proof.
  split; [reflexivity|].
  pose proof (complete_order Demo.both_failing) as Hs.
  destruct (QaseReporter.complete Demo.both_failing) as [[c w'] t]
    eqn:E.
  destruct Hs as (_ & _ & _ & _ & Hf).
  exact (Hf eq_refl).
Defined.
